(** * KuzzleRoom: the subscription room of the Kuzzle JavaScript SDK

    A shallow embedding of [KuzzleRoom] (constructor, [count], [renew],
    [unsubscribe], [dequeue] and the closures they create) together with the
    properties of its queueing, subscription and notification logic.

    JavaScript values are a small inductive type; the instance ([this]), the
    client object it points to ([this.kuzzle]) and the observable effects
    (requests handed to [kuzzle.query], [socket.on] / [socket.off], calls of
    caller-supplied functions) are threaded through a state and exception
    monad.  Asynchrony is explicit: a request is recorded together with the
    closure that was passed as its callback, and a response is a separate step
    running that closure. *)

From Stdlib Require Import List String ZArith Bool Lia.
Import ListNotations.
Local Open Scope string_scope.
Local Open Scope list_scope.
Set Warnings "-register-all".

(** ** JavaScript values *)

(** [fn] lists the function values that can reach the room as a callback:
    functions supplied by the caller (opaque, named by a number) and the
    closure [function (countError, countResult) {...}] that the notification
    handler passes to [self.count], with the variables it captures. *)
Inductive value : Type :=
| VUndefined
| VNull
| VBool (b : bool)
| VNum (n : Z)
| VStr (s : string)
| VObj (fields : list (string * value))
| VFun (f : fn)
with fn : Type :=
| UserFn (id : nat)
| LifecycleK (cb : fn) (globalEvent : string) (listening : value) (data : value).

(** ToBoolean. *)
Definition truthy (v : value) : bool :=
  match v with
  | VUndefined | VNull => false
  | VBool b => b
  | VNum n => negb (Z.eqb n 0)
  | VStr s => negb (String.eqb s "")
  | VObj _ | VFun _ => true
  end.

(** [v === null || v === undefined]. *)
Definition nullish (v : value) : bool :=
  match v with
  | VUndefined | VNull => true
  | _ => false
  end.

Fixpoint lookup (k : string) (fields : list (string * value)) : option value :=
  match fields with
  | [] => None
  | (k', v) :: rest => if String.eqb k k' then Some v else lookup k rest
  end.

(** [v.k]: [None] stands for the TypeError raised on [null] and [undefined];
    a property that is absent reads as [undefined]. *)
Definition get (v : value) (k : string) : option value :=
  match v with
  | VUndefined | VNull => None
  | VObj fields =>
      match lookup k fields with
      | Some x => Some x
      | None => Some VUndefined
      end
  | _ => Some VUndefined
  end.

Fixpoint assign (k : string) (x : value) (fields : list (string * value))
  : list (string * value) :=
  match fields with
  | [] => [(k, x)]
  | (k', v) :: rest =>
      if String.eqb k k' then (k', x) :: rest else (k', v) :: assign k x rest
  end.

(** [v.k = x], giving the object afterwards: a TypeError ([None]) on [null]
    and [undefined], ignored on the other primitives. *)
Definition set (v : value) (k : string) (x : value) : option value :=
  match v with
  | VUndefined | VNull => None
  | VObj fields => Some (VObj (assign k x fields))
  | _ => Some v
  end.

(** [args[i]] of an argument list. *)
Definition arg (i : nat) (args : list value) : value := nth i args VUndefined.

(** [JSON.parse(JSON.stringify(v))]: properties holding [undefined] or a
    function are dropped, [None] is the SyntaxError raised when
    [JSON.stringify] itself yields [undefined]. *)
Fixpoint json_copy (v : value) : option value :=
  match v with
  | VUndefined | VFun _ => None
  | VObj fields =>
      Some (VObj ((fix copy (l : list (string * value)) :=
                     match l with
                     | [] => []
                     | (k, x) :: rest =>
                         match json_copy x with
                         | Some y => (k, y) :: copy rest
                         | None => copy rest
                         end
                     end) fields))
  | _ => Some v
  end.

(** Channel keys of the transport are compared as values: a handler is found
    again under the very key it was bound with, whatever that key is. *)
Fixpoint same_key (a b : value) {struct a} : bool :=
  match a, b with
  | VUndefined, VUndefined => true
  | VNull, VNull => true
  | VBool x, VBool y => Bool.eqb x y
  | VNum x, VNum y => Z.eqb x y
  | VStr x, VStr y => String.eqb x y
  | VObj xs, VObj ys =>
      (fix same_fields (l1 l2 : list (string * value)) {struct l1} : bool :=
         match l1, l2 with
         | [], [] => true
         | (k1, v1) :: r1, (k2, v2) :: r2 =>
             String.eqb k1 k2 && same_key v1 v2 && same_fields r1 r2
         | _, _ => false
         end) xs ys
  | VFun f, VFun g => same_fn f g
  | _, _ => false
  end
with same_fn (f g : fn) {struct f} : bool :=
  match f, g with
  | UserFn i, UserFn j => Nat.eqb i j
  | LifecycleK c1 e1 l1 d1, LifecycleK c2 e2 l2 d2 =>
      same_fn c1 c2 && String.eqb e1 e2 && same_key l1 l2 && same_key d1 d2
  | _, _ => false
  end.

(** ** The instance, the client object and the effects *)

(** An element of [this.queue]: [{action: ..., args: [...]}]. *)
Record qentry : Type := { action : string; args : list value }.

(** The own properties defined by the constructor ([kuzzle] is the client
    object of the world below). *)
Record Room : Type := {
  queue : list qentry;
  subscribing : bool;
  collection : value;
  filters : value;
  headers : value;
  listeningToConnections : value;
  listeningToDisconnections : value;
  metadata : value;
  roomId : value;
  subscriptionId : value;
  subscriptionTimestamp : value;
  subscribeToSelf : value
}.

(** The closures handed to [kuzzle.query] as its callback. *)
Inductive qcallback : Type :=
| CountCb (cb : fn)      (* function (err, res) {...} of count *)
| RenewCb (cb : fn).     (* function (error, response) {...} of renew *)

(** The closure handed to [kuzzle.socket.on]: [function (data) {...}]. *)
Inductive handler : Type :=
| Notify (cb : fn).

(** [kuzzle.addHeaders(query, headers)] belongs to the client object; the
    request it builds is kept as its two arguments. *)
Inductive request : Type :=
| AddHeaders (query : value) (hdrs : value).

Inductive event : Type :=
| Query (coll : value) (controller verb : string) (data : request)
        (cb : option qcallback)
| SocketOn (key : value) (h : handler)
| SocketOff (key : value)
| Call (id : nat) (args : list value).

(** What a [throw] carries: [Error message detail] is
    [new Error(message + detail)]. *)
Inductive exn : Type :=
| Error (message : string) (detail : value)
| TypeError (what : string)
| SyntaxError (what : string).

(** The client object: the handlers bound on its socket, its global listener
    lists (functions of the caller, by number) and whether [isValid()]
    returns or throws. *)
Record Kuzzle : Type := {
  socket : list (value * handler);
  eventListeners : list (string * list nat);
  valid : bool
}.

Record world : Type := {
  self : Room;
  kuzzle : Kuzzle;
  log : list event
}.

(** ** State and exception monad *)

Inductive outcome (A : Type) : Type :=
| Returned (a : A)
| Threw (e : exn)
| OutOfFuel.
Arguments Returned {A} a.
Arguments Threw {A} e.
Arguments OutOfFuel {A}.

Definition M (A : Type) : Type := world -> outcome A * world.

Definition ret {A} (a : A) : M A := fun w => (Returned a, w).

Definition bind {A B} (c : M A) (k : A -> M B) : M B :=
  fun w =>
    match c w with
    | (Returned a, w') => k a w'
    | (Threw e, w') => (Threw e, w')
    | (OutOfFuel, w') => (OutOfFuel, w')
    end.

Definition throw {A} (e : exn) : M A := fun w => (Threw e, w).

Notation "x <- c1 ;; c2" := (bind c1 (fun x => c2))
  (at level 61, c1 at next level, right associativity).
Notation "c1 ;; c2" := (bind c1 (fun _ => c2))
  (at level 61, right associativity).

Definition this : M Room := fun w => (Returned (self w), w).

Definition update (f : Room -> Room) : M unit :=
  fun w => (Returned tt, {| self := f (self w); kuzzle := kuzzle w; log := log w |}).

Definition emit (e : event) : M unit :=
  fun w => (Returned tt, {| self := self w; kuzzle := kuzzle w; log := log w ++ [e] |}).

(** [o.k] where a TypeError is possible. *)
Definition prop (v : value) (k : string) : M value :=
  match get v k with
  | Some x => ret x
  | None => throw (TypeError ("Cannot read property " ++ k))
  end.

(** Property writes on the instance. *)
Definition set_queue (q : list qentry) (r : Room) : Room :=
  {| queue := q; subscribing := subscribing r; collection := collection r;
     filters := filters r; headers := headers r;
     listeningToConnections := listeningToConnections r;
     listeningToDisconnections := listeningToDisconnections r;
     metadata := metadata r; roomId := roomId r;
     subscriptionId := subscriptionId r;
     subscriptionTimestamp := subscriptionTimestamp r;
     subscribeToSelf := subscribeToSelf r |}.

Definition set_subscribing (b : bool) (r : Room) : Room :=
  {| queue := queue r; subscribing := b; collection := collection r;
     filters := filters r; headers := headers r;
     listeningToConnections := listeningToConnections r;
     listeningToDisconnections := listeningToDisconnections r;
     metadata := metadata r; roomId := roomId r;
     subscriptionId := subscriptionId r;
     subscriptionTimestamp := subscriptionTimestamp r;
     subscribeToSelf := subscribeToSelf r |}.

Definition set_filters (v : value) (r : Room) : Room :=
  {| queue := queue r; subscribing := subscribing r; collection := collection r;
     filters := v; headers := headers r;
     listeningToConnections := listeningToConnections r;
     listeningToDisconnections := listeningToDisconnections r;
     metadata := metadata r; roomId := roomId r;
     subscriptionId := subscriptionId r;
     subscriptionTimestamp := subscriptionTimestamp r;
     subscribeToSelf := subscribeToSelf r |}.

Definition set_roomId (v : value) (r : Room) : Room :=
  {| queue := queue r; subscribing := subscribing r; collection := collection r;
     filters := filters r; headers := headers r;
     listeningToConnections := listeningToConnections r;
     listeningToDisconnections := listeningToDisconnections r;
     metadata := metadata r; roomId := v;
     subscriptionId := subscriptionId r;
     subscriptionTimestamp := subscriptionTimestamp r;
     subscribeToSelf := subscribeToSelf r |}.

Definition set_subscriptionId (v : value) (r : Room) : Room :=
  {| queue := queue r; subscribing := subscribing r; collection := collection r;
     filters := filters r; headers := headers r;
     listeningToConnections := listeningToConnections r;
     listeningToDisconnections := listeningToDisconnections r;
     metadata := metadata r; roomId := roomId r;
     subscriptionId := v;
     subscriptionTimestamp := subscriptionTimestamp r;
     subscribeToSelf := subscribeToSelf r |}.

Definition set_subscriptionTimestamp (v : value) (r : Room) : Room :=
  {| queue := queue r; subscribing := subscribing r; collection := collection r;
     filters := filters r; headers := headers r;
     listeningToConnections := listeningToConnections r;
     listeningToDisconnections := listeningToDisconnections r;
     metadata := metadata r; roomId := roomId r;
     subscriptionId := subscriptionId r;
     subscriptionTimestamp := v;
     subscribeToSelf := subscribeToSelf r |}.

(** [this.queue.push(e)]. *)
Definition push (e : qentry) : M unit :=
  update (fun r => set_queue (queue r ++ [e]) r).

(** ** The collaborators on the client object *)

(** Modelled from the spec: [kuzzle.query], the Query Gateway, which is not in
    this module.  It sends a typed request and later hands [(error, response)]
    to the optional callback; sending is recorded, the response is the
    separate step [respond] below. *)
Definition query (coll : value) (controller verb : string) (data : request)
  (cb : option qcallback) : M unit :=
  emit (Query coll controller verb data cb).

(** Modelled from the spec: [kuzzle.socket], the Transport, which is not in
    this module.  [on(channelKey, handler)] registers a handler invoked with
    each inbound message, [off(channelKey)] deregisters what is registered
    under the key. *)
Definition socket_on (key : value) (h : handler) : M unit :=
  fun w =>
    (Returned tt,
     {| self := self w;
        kuzzle := {| socket := socket (kuzzle w) ++ [(key, h)];
                     eventListeners := eventListeners (kuzzle w);
                     valid := valid (kuzzle w) |};
        log := log w ++ [SocketOn key h] |}).

Definition socket_off (key : value) : M unit :=
  fun w =>
    (Returned tt,
     {| self := self w;
        kuzzle := {| socket := filter (fun b => negb (same_key (fst b) key))
                                      (socket (kuzzle w));
                     eventListeners := eventListeners (kuzzle w);
                     valid := valid (kuzzle w) |};
        log := log w ++ [SocketOff key] |}).

(** Modelled from the spec: [kuzzle.callbackRequired], which is not in this
    module: a callback argument is required for [renew] and [count].  It
    yields the function when there is one and throws otherwise. *)
Definition callbackRequired (prefix : string) (cb : value) : M fn :=
  match cb with
  | VFun f => ret f
  | _ => throw (Error (prefix ++ ": a callback argument is required") cb)
  end.

(** [kuzzle.eventListeners[globalEvent]]: [None] when the client object has
    no list under that name. *)
Definition listeners_of (k : Kuzzle) (globalEvent : string) : option (list nat) :=
  match find (fun p => String.eqb (fst p) globalEvent) (eventListeners k) with
  | Some p => Some (snd p)
  | None => None
  end.

(** [self.kuzzle.eventListeners[globalEvent]] where its [length] or [forEach]
    is taken: a TypeError when the list is absent. *)
Definition listeners (globalEvent : string) : M (list nat) :=
  fun w =>
    match listeners_of (kuzzle w) globalEvent with
    | Some ls => (Returned ls, w)
    | None =>
        (Threw (TypeError ("Cannot read property of undefined: " ++ globalEvent)), w)
    end.

(** ** The closures *)

(** Calling a function value.  A function of the caller is opaque: its call
    is recorded with its arguments, and it is taken to return without touching
    the instance.  [LifecycleK] is the body of the closure passed to
    [self.count] by the notification handler; [data.result] is read through
    the captured message, whose [result] received the [count] property. *)
Fixpoint call_fn (f : fn) (actuals : list value) {struct f} : M unit :=
  match f with
  | UserFn id => emit (Call id actuals)
  | LifecycleK cb globalEvent listening data =>
      let countError := arg 0 actuals in
      let countResult := arg 1 actuals in
      if truthy countError then
        if truthy listening then call_fn cb [countError] else ret tt
      else
        result <- prop data "result" ;;
        match set result "count" countResult with
        | None => throw (TypeError "Cannot set property count")
        | Some result' =>
            (if truthy listening then call_fn cb [VNull; result'] else ret tt) ;;
            ls <- listeners globalEvent ;;
            fold_right
              (fun listener rest =>
                 r <- this ;;
                 emit (Call listener [subscriptionId r; result']) ;;
                 rest)
              (ret tt) ls
        end
  end.

(** ** The methods *)

(** [KuzzleRoom.prototype.count] *)
Definition count (cb : value) : M unit :=
  f <- callbackRequired "KuzzleRoom.count" cb ;;
  r <- this ;;
  let data := AddHeaders (VObj [("body", VObj [("roomId", roomId r)])]) (headers r) in
  if subscribing r then
    push {| action := "count"; args := [cb] |}
  else
    query (collection r) "subscribe" "count" data (Some (CountCb f)).

(** [KuzzleRoom.prototype.unsubscribe] *)
Definition unsubscribe : M unit :=
  r <- this ;;
  if subscribing r then
    push {| action := "unsubscribed"; args := [] |}
  else if truthy (roomId r) then
    let data := AddHeaders (VObj [("requestId", subscriptionId r)]) (headers r) in
    query (collection r) "subscribe" "off" data None ;;
    socket_off (roomId r) ;;
    update (set_roomId VNull) ;;
    update (set_subscriptionId VNull) ;;
    update (set_subscriptionTimestamp VNull)
  else
    ret tt.

(** [KuzzleRoom.prototype.renew], up to the point where the subscribe request
    has been handed to [kuzzle.query]. *)
Definition renew (fltrs cb : value) : M unit :=
  r <- this ;;
  if subscribing r then
    push {| action := "renew"; args := [fltrs; cb] |}
  else
    f <- callbackRequired "KuzzleRoom.renew" cb ;;
    update (set_filters fltrs) ;;
    unsubscribe ;;
    r' <- this ;;
    let subscribeQuery := AddHeaders (VObj [("body", fltrs)]) (headers r') in
    update (set_subscribing true) ;;
    query (collection r') "subscribe" "on" subscribeQuery (Some (RenewCb f)).

(** The functions found on [KuzzleRoom.prototype]; [this[name]] for any other
    name an entry of the queue can carry is not callable. *)
Inductive method : Type := m_count | m_renew | m_unsubscribe | m_dequeue.

Definition prototype (name : string) : option method :=
  if String.eqb name "count" then Some m_count
  else if String.eqb name "renew" then Some m_renew
  else if String.eqb name "unsubscribe" then Some m_unsubscribe
  else if String.eqb name "dequeue" then Some m_dequeue
  else None.

(** [this[element.action].apply(this, element.args)]; [dq] is the [dequeue]
    method itself. *)
Definition invoke (dq : M unit) (element : qentry) : M unit :=
  match prototype (action element) with
  | Some m_count => count (arg 0 (args element))
  | Some m_renew => renew (arg 0 (args element)) (arg 1 (args element))
  | Some m_unsubscribe => unsubscribe
  | Some m_dequeue => dq
  | None => throw (TypeError ("Cannot read property apply of undefined: " ++ action element))
  end.

(** [KuzzleRoom.prototype.dequeue]: the [while] loop, one unit of fuel for
    each turn. *)
Fixpoint dequeue (fuel : nat) : M unit :=
  fun w =>
    match queue (self w) with
    | [] => (Returned tt, w)
    | element :: rest =>
        match fuel with
        | O => (OutOfFuel, w)
        | S n =>
            (update (set_queue rest) ;;
             invoke (dequeue n) element ;;
             dequeue n) w
        end
    end.

(** The notification handler bound by [renew]: [function (data) {...}]. *)
Definition notify (cb : fn) (data : value) : M unit :=
  error <- prop data "error" ;;
  if truthy error then
    call_fn cb [error]
  else
    result <- prop data "result" ;;
    act <- prop result "action" ;;
    let is_on := match act with VStr a => String.eqb a "on" | _ => false end in
    let is_off := match act with VStr a => String.eqb a "off" | _ => false end in
    if is_on || is_off then
      r <- this ;;
      let globalEvent := if is_on then "subscribed" else "unsubscribed" in
      let listening :=
        if is_on then listeningToConnections r else listeningToDisconnections r in
      proceed <-
        (if truthy listening then ret true
         else ls <- listeners globalEvent ;; ret (Nat.ltb 0 (List.length ls))) ;;
      if (proceed : bool) then
        count (VFun (LifecycleK cb globalEvent listening data))
      else
        ret tt
    else
      call_fn cb [VNull; result].

(** Running the callback of a request with [(error, response)]; [now] is
    what [Date.now()] returns. *)
Definition run_callback (fuel : nat) (now : Z) (k : qcallback)
  (error response : value) : M unit :=
  match k with
  | CountCb cb =>
      if truthy error then call_fn cb [error] else call_fn cb [VNull; response]
  | RenewCb cb =>
      if truthy error then
        throw (Error "Error during Kuzzle subscription: " error)
      else
        rid <- prop response "roomId" ;;
        update (set_roomId rid) ;;
        rname <- prop response "roomName" ;;
        update (set_subscriptionId rname) ;;
        update (set_subscriptionTimestamp (VNum now)) ;;
        update (set_subscribing false) ;;
        dequeue fuel ;;
        r <- this ;;
        socket_on (roomId r) (Notify cb)
  end.

(** ** The environment *)

(** The callback slot of the most recent request sent with a given verb. *)
Fixpoint last_request (verb : string) (l : list event)
  : option (option qcallback) :=
  match l with
  | [] => None
  | e :: rest =>
      match last_request verb rest with
      | Some c => Some c
      | None =>
          match e with
          | Query _ _ v _ cb => if String.eqb v verb then Some cb else None
          | _ => None
          end
      end
  end.

(** The response to the most recent request sent with [verb]: its callback,
    if it has one, runs with [(error, response)]. *)
Definition respond (fuel : nat) (now : Z) (verb : string)
  (error response : value) : M unit :=
  fun w =>
    match last_request verb (log w) with
    | Some (Some k) => run_callback fuel now k error response w
    | _ => (Returned tt, w)
    end.

(** An inbound message on a channel: every handler registered under the key
    runs, in registration order. *)
Definition deliver (key : value) (data : value) : M unit :=
  fun w =>
    fold_right
      (fun (b : value * handler) rest =>
         match snd b with Notify cb => notify cb data ;; rest end)
      (ret tt)
      (filter (fun b => same_key (fst b) key) (socket (kuzzle w)))
      w.

(** ** The constructor *)

(** What the constructor reads of [kuzzleDataCollection]; its [kuzzle] is the
    client object. *)
Record DataCollection : Type := {
  dc_collection : value;
  dc_headers : value
}.

(** [(options && options.name) ? options.name : false] *)
Definition option_flag (options : value) (name : string) : value :=
  if truthy options then
    match get options name with
    | Some v => if truthy v then v else VBool false
    | None => VBool false
    end
  else VBool false.

(** [new KuzzleRoom(kuzzleDataCollection, options)]; a missing first argument
    is [None].  [bluebird.promisifyAll] returns the instance, with methods
    added that nothing here calls. *)
Definition KuzzleRoom (kuzzleDataCollection : option DataCollection)
  (options : value) (k : Kuzzle) : exn + Room :=
  match kuzzleDataCollection with
  | None => inl (Error "KuzzleRoom: missing parameters" VUndefined)
  | Some dc =>
      if valid k then
        match json_copy (dc_headers dc) with
        | None => inl (SyntaxError "JSON.parse")
        | Some h =>
            inr {| queue := [];
                   subscribing := false;
                   collection := dc_collection dc;
                   filters := VNull;
                   headers := h;
                   listeningToConnections :=
                     option_flag options "listeningToConnections";
                   listeningToDisconnections :=
                     option_flag options "listeningToDisconnections";
                   metadata := VObj [];
                   roomId := VNull;
                   subscriptionId := VNull;
                   subscriptionTimestamp := VNull;
                   subscribeToSelf := option_flag options "subscribeToSelf" |}
        end
      else inl (Error "kuzzle.isValid" VUndefined)
  end.

(** ** Vocabulary of the statements *)

(** The world with further effects recorded, and with the instance changed. *)
Definition logged (w : world) (es : list event) : world :=
  {| self := self w; kuzzle := kuzzle w; log := log w ++ es |}.

Definition with_self (w : world) (r : Room) : world :=
  {| self := r; kuzzle := kuzzle w; log := log w |}.

(** The gate flag and the global event that the handler selects for a
    lifecycle action. *)
Definition gate (a : string) (r : Room) : value :=
  if String.eqb a "on" then listeningToConnections r
  else listeningToDisconnections r.

Definition global_event (a : string) : string :=
  if String.eqb a "on" then "subscribed" else "unsubscribed".

(** The request sent by [count]. *)
Definition count_request (r : Room) (k : fn) : event :=
  Query (collection r) "subscribe" "count"
        (AddHeaders (VObj [("body", VObj [("roomId", roomId r)])]) (headers r))
        (Some (CountCb k)).

(** The request sent by [unsubscribe], the instance once its three identity
    fields are cleared, and the client object once a key is detached. *)
Definition off_request (r : Room) : event :=
  Query (collection r) "subscribe" "off"
        (AddHeaders (VObj [("requestId", subscriptionId r)]) (headers r))
        None.

Definition cleared (r : Room) : Room :=
  set_subscriptionTimestamp VNull (set_subscriptionId VNull (set_roomId VNull r)).

Definition detached (key : value) (k : Kuzzle) : Kuzzle :=
  {| socket := filter (fun b => negb (same_key (fst b) key)) (socket k);
     eventListeners := eventListeners k;
     valid := valid k |}.

(** The request sent by [renew]. *)
Definition on_request (r : Room) (fltrs : value) (f : fn) : event :=
  Query (collection r) "subscribe" "on"
        (AddHeaders (VObj [("body", fltrs)]) (headers r))
        (Some (RenewCb f)).

(** The world right after a [renew] that proceeds. *)
Definition renewed (fltrs : value) (f : fn) (w : world) : world :=
  let r := set_filters fltrs (self w) in
  if truthy (roomId (self w)) then
    {| self := set_subscribing true (cleared r);
       kuzzle := detached (roomId (self w)) (kuzzle w);
       log := log w ++ [off_request r; SocketOff (roomId (self w));
                        on_request r fltrs f] |}
  else
    {| self := set_subscribing true r;
       kuzzle := kuzzle w;
       log := log w ++ [on_request r fltrs f] |}.

(** The entry pushed by [count(f)] while subscribing. *)
Definition count_entry (f : fn) : qentry :=
  {| action := "count"; args := [VFun f] |}.

(** A series of [count] calls, one after the other. *)
Definition count_all (fs : list fn) : M unit :=
  fold_right (fun f rest => count (VFun f) ;; rest) (ret tt) fs.

(** ** Concrete inputs used by the examples *)

Module Sample.

Definition client : Kuzzle :=
  {| socket := [];
     eventListeners := [("subscribed", []); ("unsubscribed", [])];
     valid := true |}.

Definition books : DataCollection :=
  {| dc_collection := VStr "books"; dc_headers := VObj [] |}.

(** The world right after [new KuzzleRoom(books, options)]. *)
Definition created (options : value) : option world :=
  match KuzzleRoom (Some books) options client with
  | inr r => Some {| self := r; kuzzle := client; log := [] |}
  | inl _ => None
  end.

Definition cb1 : fn := UserFn 1.
Definition cb2 : fn := UserFn 2.
Definition cb3 : fn := UserFn 3.

Definition subscribed (rid rname : string) : value :=
  VObj [("roomId", VStr rid); ("roomName", VStr rname)].

Definition message (act : string) : value :=
  VObj [("result", VObj [("action", VStr act)])].

(** The instance right after construction without options. *)
Definition idle : world :=
  {| self := {| queue := []; subscribing := false;
                collection := VStr "books"; filters := VNull;
                headers := VObj [];
                listeningToConnections := VBool false;
                listeningToDisconnections := VBool false;
                metadata := VObj []; roomId := VNull;
                subscriptionId := VNull; subscriptionTimestamp := VNull;
                subscribeToSelf := VBool false |};
     kuzzle := client;
     log := [] |}.

(** The instance right after construction with
    [{listeningToConnections: true}]. *)
Definition fresh : world :=
  {| self := {| queue := []; subscribing := false;
                collection := VStr "books"; filters := VNull;
                headers := VObj [];
                listeningToConnections := VBool true;
                listeningToDisconnections := VBool false;
                metadata := VObj []; roomId := VNull;
                subscriptionId := VNull; subscriptionTimestamp := VNull;
                subscribeToSelf := VBool false |};
     kuzzle := client;
     log := [] |}.

Definition someFilters : value := VObj [("field", VStr "x")].

(** An active subscription: [renew] on a fresh instance, answered with
    room id ['r1'] and room name ['s1'] at time 1000. *)
Definition active : world :=
  Eval cbv in
    snd ((renew someFilters (VFun cb1) ;;
          respond 1 1000 "on" VNull (subscribed "r1" "s1")) idle).

End Sample.

(** What the Query Gateway hands to a callback for a backend response:
    the response itself, or its [result] payload. *)
Definition whole_response (response : value) : value := response.

Definition result_payload (response : value) : value :=
  match get response "result" with
  | Some v => v
  | None => VUndefined
  end.

Definition payload_or_response (response : value) : value :=
  match get response "result" with
  | Some VUndefined | None => response
  | Some v => v
  end.

(** The scenario: a room constructed with [listeningToConnections = true],
    [renew({field: 'x'}, cb1)], a subscribe response, a message
    [{result: {action: 'on'}}] on channel ['r1'], and a count response; the
    callbacks receive what [gateway] makes of the two backend responses. *)
Definition connection_scenario (gateway : value -> value)
  (subscribeResponse countResponse : value) : outcome unit * world :=
  (renew (VObj [("field", VStr "x")]) (VFun Sample.cb1) ;;
   respond 1 1000 "on" VNull (gateway subscribeResponse) ;;
   deliver (VStr "r1") (Sample.message "on") ;;
   respond 1 1001 "count" VNull (gateway countResponse))
    Sample.fresh.

(** ** Runs of the instance *)

(** A call of the public interface. *)
Inductive call : Type :=
| CallRenew (fltrs cb : value)
| CallCount (cb : value)
| CallUnsubscribe.

Definition perform (c : call) : M unit :=
  match c with
  | CallRenew fltrs cb => renew fltrs cb
  | CallCount cb => count cb
  | CallUnsubscribe => unsubscribe
  end.

(** Calls made one after the other, as long as none throws. *)
Definition perform_all (cs : list call) : M unit :=
  fold_right (fun c rest => perform c ;; rest) (ret tt) cs.

(** The entry each method pushes while subscribing. *)
Definition entry_of (c : call) : qentry :=
  match c with
  | CallRenew fltrs cb => {| action := "renew"; args := [fltrs; cb] |}
  | CallCount cb => {| action := "count"; args := [cb] |}
  | CallUnsubscribe => {| action := "unsubscribed"; args := [] |}
  end.

(** Whether a call passes the callback check that precedes queueing: only
    [count] checks before it looks at [subscribing]. *)
Definition has_callback (c : call) : bool :=
  match c with
  | CallCount (VFun _) => true
  | CallCount _ => false
  | _ => true
  end.

(** One turn of the event loop: a call by the caller, the response to a
    request, or an inbound message.  An exception ends the turn it is thrown
    in and not the run. *)
Inductive step : Type :=
| Do (c : call)
| Respond (fuel : nat) (now : Z) (verb : string) (error response : value)
| Deliver (key data : value).

Definition run_step (s : step) : M unit :=
  match s with
  | Do c => perform c
  | Respond fuel now verb error response => respond fuel now verb error response
  | Deliver key data => deliver key data
  end.

Definition run (steps : list step) (w : world) : world :=
  fold_left (fun w' s => snd (run_step s w')) steps w.

(** What is configured at construction, on the instance and on the client
    object. *)
Definition settings (w : world)
  : value * value * value * value * value * value
    * list (string * list nat) * bool :=
  (collection (self w), headers (self w),
   listeningToConnections (self w), listeningToDisconnections (self w),
   metadata (self w), subscribeToSelf (self w),
   eventListeners (kuzzle w), valid (kuzzle w)).

(** Whether a value is a function. *)
Definition is_function (v : value) : bool :=
  match v with VFun _ => true | _ => false end.

(** The three shapes of entry the methods push. *)
Definition pushed (e : qentry) : bool :=
  match args e with
  | [] => String.eqb (action e) "unsubscribed"
  | [cb] => is_function cb && String.eqb (action e) "count"
  | [_; _] => String.eqb (action e) "renew"
  | _ => false
  end.

(** Whether replaying an entry while [subscribing] is set pushes an entry
    again: a [count] with its function, and any [renew]. *)
Definition requeues (e : qentry) : bool :=
  match prototype (action e) with
  | Some m_count => match arg 0 (args e) with VFun _ => true | _ => false end
  | Some m_renew => true
  | _ => false
  end.

(** A computation keeps a property of the world when every world that has it
    is followed by one that has it, however the computation ends. *)
Definition preserves (P : world -> Prop) {A : Type} (c : M A) : Prop :=
  forall w, P w -> P (snd (c w)).

(** * Properties *)

(** ** Basic facts about the monad and the effect log *)

Lemma last_request_snoc (verb : string) (l : list event) (coll : value)
  (controller : string) (data : request) (cb : option qcallback) :
  last_request verb (l ++ [Query coll controller verb data cb]) = Some cb.
Proof.
  induction l as [|e l IH]; simpl.
  - now rewrite String.eqb_refl.
  - now rewrite IH.
Qed.

Lemma last_request_snoc_other (verb : string) (l : list event) (e : event) :
  match e with Query _ _ v _ _ => String.eqb v verb = false | _ => True end ->
  last_request verb (l ++ [e]) = last_request verb l.
Proof.
  intros He. induction l as [|x l IH]; simpl.
  - destruct e; trivial. now rewrite He.
  - now rewrite IH.
Qed.

(** A key is the same as itself. *)
Lemma same_key_refl : forall a, same_key a a = true
with same_fn_refl : forall f, same_fn f f = true.
Proof.
  - intros a. destruct a as [| |b|n|s|fields|f]; simpl; try reflexivity.
    + apply Bool.eqb_reflx.
    + apply Z.eqb_refl.
    + apply String.eqb_refl.
    + induction fields as [|[k v] rest IH]; [reflexivity|].
      rewrite String.eqb_refl, (same_key_refl v), IH. reflexivity.
    + apply same_fn_refl.
  - intros f. destruct f as [id|cb ev listening data]; simpl.
    + apply Nat.eqb_refl.
    + now rewrite (same_fn_refl cb), String.eqb_refl, (same_key_refl listening),
        (same_key_refl data).
Qed.

(** ** The sample inputs *)

Lemma created_idle : Sample.created VUndefined = Some Sample.idle.
Proof. reflexivity. Qed.

Lemma created_fresh :
  Sample.created (VObj [("listeningToConnections", VBool true)]) = Some Sample.fresh.
Proof. reflexivity. Qed.

Lemma active_state :
  roomId (self Sample.active) = VStr "r1" /\
  subscriptionId (self Sample.active) = VStr "s1" /\
  subscriptionTimestamp (self Sample.active) = VNum 1000 /\
  subscribing (self Sample.active) = false /\
  socket (kuzzle Sample.active) = [(VStr "r1", Notify Sample.cb1)].
Proof. repeat split; reflexivity. Qed.

(** ** The constructor *)

(** C10: constructed without options, or with options lacking the three keys,
    the flags [listeningToConnections], [listeningToDisconnections] and
    [subscribeToSelf] are [false], [filters], [roomId], [subscriptionId] and
    [subscriptionTimestamp] are [null], the queue is empty and [subscribing]
    is [false].  The constructor returns as soon as the client object is valid
    and the headers can be copied. *)
Theorem constructor_defaults (dc : DataCollection) (k : Kuzzle)
  (options h : value) :
  valid k = true ->
  json_copy (dc_headers dc) = Some h ->
  options = VUndefined \/
  (get options "listeningToConnections" = Some VUndefined /\
   get options "listeningToDisconnections" = Some VUndefined /\
   get options "subscribeToSelf" = Some VUndefined) ->
  exists r,
    KuzzleRoom (Some dc) options k = inr r /\
    listeningToConnections r = VBool false /\
    listeningToDisconnections r = VBool false /\
    subscribeToSelf r = VBool false /\
    filters r = VNull /\ roomId r = VNull /\
    subscriptionId r = VNull /\ subscriptionTimestamp r = VNull /\
    queue r = [] /\ subscribing r = false.
Proof.
  intros Hv Hh Hopt. unfold KuzzleRoom. rewrite Hv, Hh.
  eexists; split; [reflexivity|]. cbn [listeningToConnections
    listeningToDisconnections subscribeToSelf filters roomId subscriptionId
    subscriptionTimestamp queue subscribing].
  assert (Hflag : forall name,
             (options = VUndefined \/ get options name = Some VUndefined) ->
             option_flag options name = VBool false).
  { intros name [-> | Hg]; [reflexivity|].
    unfold option_flag. rewrite Hg. now destruct (truthy options). }
  repeat split; try reflexivity; apply Hflag; tauto.
Qed.

Lemma constructor_defaults_witness :
  exists r,
    KuzzleRoom (Some Sample.books) (VObj [("volatile", VBool true)]) Sample.client
      = inr r /\
    listeningToConnections r = VBool false /\
    listeningToDisconnections r = VBool false /\
    subscribeToSelf r = VBool false /\
    filters r = VNull /\ roomId r = VNull /\
    subscriptionId r = VNull /\ subscriptionTimestamp r = VNull /\
    queue r = [] /\ subscribing r = false.
Proof.
  apply (constructor_defaults Sample.books Sample.client
           (VObj [("volatile", VBool true)]) (VObj [])).
  - reflexivity.
  - reflexivity.
  - right. repeat split; reflexivity.
Defined.

(** ** Notification dispatch *)

Lemma logged_nil (w : world) : logged w [] = w.
Proof. destruct w; unfold logged; simpl. now rewrite app_nil_r. Qed.

Lemma notify_lifecycle (w : world) (cb : fn) (data e result : value) (a : string) :
  get data "error" = Some e -> truthy e = false ->
  get data "result" = Some result ->
  get result "action" = Some (VStr a) ->
  a = "on" \/ a = "off" ->
  notify cb data w =
    (proceed <-
       (if truthy (gate a (self w)) then ret true
        else ls <- listeners (global_event a) ;; ret (Nat.ltb 0 (List.length ls))) ;;
     if (proceed : bool) then
       count (VFun (LifecycleK cb (global_event a) (gate a (self w)) data))
     else ret tt) w.
Proof.
  intros He Hf Hr Ha Hact.
  unfold notify, prop, bind at 1, ret at 1. rewrite He.
  rewrite Hf. unfold bind at 1, ret at 1. rewrite Hr.
  unfold bind at 1, ret at 1. rewrite Ha.
  destruct Hact as [-> | ->]; reflexivity.
Qed.

(** C7: for every inbound notification that reaches the classification by
    action (it carries no error payload) and whose result action is ['on'] or
    ['off'], if the corresponding gate flag is false and the corresponding
    global listener list is empty, then no count query is issued and no
    callback or listener is invoked: the handler returns and nothing at all
    has changed. *)
Theorem lifecycle_ungated_is_silent (w : world) (cb : fn)
  (data e result : value) (a : string) :
  get data "error" = Some e -> truthy e = false ->
  get data "result" = Some result ->
  get result "action" = Some (VStr a) ->
  a = "on" \/ a = "off" ->
  truthy (gate a (self w)) = false ->
  listeners_of (kuzzle w) (global_event a) = Some [] ->
  notify cb data w = (Returned tt, w).
Proof.
  intros He Hf Hr Ha Hact Hg Hl.
  rewrite (notify_lifecycle w cb data e result a He Hf Hr Ha Hact).
  rewrite Hg. unfold bind, listeners, ret. now rewrite Hl.
Qed.

Lemma lifecycle_ungated_is_silent_witness :
  notify Sample.cb1 (Sample.message "off") Sample.idle
  = (Returned tt, Sample.idle).
Proof.
  apply (lifecycle_ungated_is_silent Sample.idle Sample.cb1
           (Sample.message "off") VUndefined
           (VObj [("action", VStr "off")]) "off").
  - reflexivity.
  - reflexivity.
  - reflexivity.
  - reflexivity.
  - right; reflexivity.
  - reflexivity.
  - reflexivity.
Defined.

(** C8: for a lifecycle notification whose dispatch proceeds, the handler
    hands [self.count] a closure [K]; the count request is sent with it (or
    queued with it while subscribing); and whenever that count query fails,
    the subscription's callback is called with the count error exactly when
    the gate flag is true, and nothing else happens: no global listener is
    called. *)
Theorem lifecycle_count_failure (w : world) (id : nat)
  (data e result : value) (a : string) :
  get data "error" = Some e -> truthy e = false ->
  get data "result" = Some result ->
  get result "action" = Some (VStr a) ->
  a = "on" \/ a = "off" ->
  (truthy (gate a (self w)) = true \/
   exists l ls, listeners_of (kuzzle w) (global_event a) = Some (l :: ls)) ->
  let K := LifecycleK (UserFn id) (global_event a) (gate a (self w)) data in
  (subscribing (self w) = false ->
   notify (UserFn id) data w
   = (Returned tt, logged w [count_request (self w) K])) /\
  (subscribing (self w) = true ->
   notify (UserFn id) data w
   = (Returned tt,
      with_self w (set_queue (queue (self w) ++
                              [{| action := "count"; args := [VFun K] |}])
                             (self w)))) /\
  (forall fuel now err res w',
     truthy err = true ->
     run_callback fuel now (CountCb K) err res w'
     = (Returned tt,
        if truthy (gate a (self w)) then logged w' [Call id [err]] else w')).
Proof.
  intros He Hf Hr Ha Hact Hgo K.
  assert (Hn : notify (UserFn id) data w = count (VFun K) w).
  { rewrite (notify_lifecycle w _ data e result a He Hf Hr Ha Hact).
    destruct Hgo as [Hg | (l & ls & Hl)].
    - rewrite Hg. reflexivity.
    - destruct (truthy (gate a (self w))); [reflexivity|].
      unfold bind, listeners, ret. now rewrite Hl. }
  split; [|split].
  - intros Hs. rewrite Hn. unfold count, bind, callbackRequired, ret, this.
    rewrite Hs. reflexivity.
  - intros Hs. rewrite Hn. unfold count, bind, callbackRequired, ret, this.
    rewrite Hs. reflexivity.
  - intros fuel now err res w' Herr.
    unfold run_callback. rewrite Herr. unfold K. simpl. unfold arg. simpl.
    rewrite Herr. destruct (truthy (gate a (self w))); reflexivity.
Qed.

Lemma lifecycle_count_failure_witness :
  let w := Sample.fresh in
  let K := LifecycleK (UserFn 1) "subscribed" (VBool true) (Sample.message "on") in
  (subscribing (self w) = false ->
   notify (UserFn 1) (Sample.message "on") w
   = (Returned tt, logged w [count_request (self w) K])) /\
  (subscribing (self w) = true ->
   notify (UserFn 1) (Sample.message "on") w
   = (Returned tt,
      with_self w (set_queue (queue (self w) ++
                              [{| action := "count"; args := [VFun K] |}])
                             (self w)))) /\
  (forall fuel now err res w',
     truthy err = true ->
     run_callback fuel now (CountCb K) err res w'
     = (Returned tt,
        if truthy (gate "on" (self w)) then logged w' [Call 1 [err]] else w')).
Proof.
  apply (lifecycle_count_failure Sample.fresh 1 (Sample.message "on")
           VUndefined (VObj [("action", VStr "on")]) "on").
  - reflexivity.
  - reflexivity.
  - reflexivity.
  - reflexivity.
  - left; reflexivity.
  - left; reflexivity.
Defined.

(** ** Unsubscribing *)

Lemma unsubscribe_queued (w : world) :
  subscribing (self w) = true ->
  unsubscribe w
  = (Returned tt,
     with_self w (set_queue (queue (self w) ++
                             [{| action := "unsubscribed"; args := [] |}])
                            (self w))).
Proof.
  intros Hs. unfold unsubscribe, bind, this. now rewrite Hs.
Qed.

Lemma unsubscribe_idle (w : world) :
  subscribing (self w) = false ->
  truthy (roomId (self w)) = false ->
  unsubscribe w = (Returned tt, w).
Proof.
  intros Hs Ht. unfold unsubscribe, bind, this. now rewrite Hs, Ht.
Qed.

Lemma unsubscribe_active (w : world) :
  subscribing (self w) = false ->
  truthy (roomId (self w)) = true ->
  unsubscribe w
  = (Returned tt,
     {| self := cleared (self w);
        kuzzle := detached (roomId (self w)) (kuzzle w);
        log := log w ++ [off_request (self w); SocketOff (roomId (self w))] |}).
Proof.
  intros Hs Ht. unfold unsubscribe, bind, this. rewrite Hs, Ht.
  cbn. rewrite <- app_assoc. reflexivity.
Qed.

Lemma detached_has_no_handler (key : value) (l : list (value * handler)) :
  filter (fun b => same_key (fst b) key)
         (filter (fun b => negb (same_key (fst b) key)) l) = [].
Proof.
  induction l as [|b l IH]; simpl; [reflexivity|].
  destruct (same_key (fst b) key) eqn:E; simpl; [exact IH|].
  now rewrite E.
Qed.

(** C5 (as amended): on an instance that is not subscribing and whose
    [roomId] is truthy, [unsubscribe] sends an unsubscribe request without a
    callback (no response to it, failed or not, has any effect), detaches the
    handlers bound under the old room id (a later message on that id reaches
    nobody), and sets [roomId], [subscriptionId] and [subscriptionTimestamp]
    to [null].  On a falsy [roomId], null or not, it does nothing. *)
Theorem unsubscribe_tears_down (w : world) :
  subscribing (self w) = false ->
  (truthy (roomId (self w)) = true ->
   exists w',
     unsubscribe w = (Returned tt, w') /\
     log w' = log w ++ [off_request (self w); SocketOff (roomId (self w))] /\
     (forall fuel now error response,
        respond fuel now "off" error response w' = (Returned tt, w')) /\
     (forall data, deliver (roomId (self w)) data w' = (Returned tt, w')) /\
     roomId (self w') = VNull /\
     subscriptionId (self w') = VNull /\
     subscriptionTimestamp (self w') = VNull) /\
  (truthy (roomId (self w)) = false -> unsubscribe w = (Returned tt, w)).
Proof.
  intros Hs. split; [|now apply unsubscribe_idle].
  intros Ht. eexists. split; [apply (unsubscribe_active w Hs Ht)|].
  split; [reflexivity|]. split; [|split; [|repeat split]].
  - intros fuel now error response. unfold respond. cbn [log].
    change (log w ++ [off_request (self w); SocketOff (roomId (self w))])
      with (log w ++ [off_request (self w)] ++ [SocketOff (roomId (self w))]).
    rewrite app_assoc, last_request_snoc_other by exact I.
    unfold off_request. now rewrite last_request_snoc.
  - intros data. unfold deliver. cbn [kuzzle detached socket].
    now rewrite detached_has_no_handler.
Qed.

Lemma unsubscribe_tears_down_witness :
  exists w',
    unsubscribe Sample.active = (Returned tt, w') /\
    log w' = log Sample.active ++
             [off_request (self Sample.active);
              SocketOff (roomId (self Sample.active))] /\
    (forall fuel now error response,
       respond fuel now "off" error response w' = (Returned tt, w')) /\
    (forall data,
       deliver (roomId (self Sample.active)) data w' = (Returned tt, w')) /\
    roomId (self w') = VNull /\
    subscriptionId (self w') = VNull /\
    subscriptionTimestamp (self w') = VNull.
Proof.
  apply (proj1 (unsubscribe_tears_down Sample.active eq_refl)). reflexivity.
Defined.

(** C5 fails as stated: a room id that is not null but falsy, here the empty
    string handed back by the subscribe response, is skipped by the guard
    [if (this.roomId)]: nothing is sent, the handler stays bound and still
    receives messages, and the three fields keep their values. *)
Lemma unsubscribe_skips_falsy_room_id :
  let w := snd ((renew Sample.someFilters (VFun Sample.cb1) ;;
                 respond 1 1000 "on" VNull (Sample.subscribed "" "s1"))
                  Sample.idle) in
  subscribing (self w) = false /\
  roomId (self w) = VStr "" /\
  nullish (roomId (self w)) = false /\
  socket (kuzzle w) = [(VStr "", Notify Sample.cb1)] /\
  unsubscribe w = (Returned tt, w) /\
  deliver (VStr "") (Sample.message "update") w
  = (Returned tt, logged w [Call 1 [VNull; VObj [("action", VStr "update")]]]).
Proof.
  vm_compute. repeat split; reflexivity.
Qed.

(** ** Renewing *)

Lemma renew_queued (w : world) (fltrs cb : value) :
  subscribing (self w) = true ->
  renew fltrs cb w
  = (Returned tt,
     with_self w (set_queue (queue (self w) ++
                             [{| action := "renew"; args := [fltrs; cb] |}])
                            (self w))).
Proof.
  intros Hs. unfold renew, bind, this. now rewrite Hs.
Qed.

Lemma renew_proceeds (w : world) (fltrs : value) (f : fn) :
  subscribing (self w) = false ->
  renew fltrs (VFun f) w = (Returned tt, renewed fltrs f w).
Proof.
  intros Hs. unfold renew, renewed.
  unfold bind at 1, this at 1. rewrite Hs.
  unfold bind at 1, callbackRequired, ret at 1.
  unfold bind at 1, update at 1.
  unfold bind at 1.
  destruct (truthy (roomId (self w))) eqn:Ht.
  - rewrite unsubscribe_active; [|exact Hs|exact Ht].
    cbn. unfold query, emit. cbn. rewrite <- !app_assoc. reflexivity.
  - rewrite unsubscribe_idle; [|exact Hs|exact Ht].
    cbn. reflexivity.
Qed.

Lemma renewed_subscribing (fltrs : value) (f : fn) (w : world) :
  subscribing (self (renewed fltrs f w)) = true.
Proof. unfold renewed. now destruct (truthy (roomId (self w))). Qed.

Lemma renewed_last_request (fltrs : value) (f : fn) (w : world) :
  last_request "on" (log (renewed fltrs f w)) = Some (Some (RenewCb f)).
Proof.
  unfold renewed. destruct (truthy (roomId (self w))); cbn [log].
  - change [off_request (set_filters fltrs (self w)); SocketOff (roomId (self w));
            on_request (set_filters fltrs (self w)) fltrs f]
      with ([off_request (set_filters fltrs (self w)); SocketOff (roomId (self w))]
              ++ [on_request (set_filters fltrs (self w)) fltrs f]).
    rewrite app_assoc. apply last_request_snoc.
  - apply last_request_snoc.
Qed.

(** [renew] runs its unsubscribe step before it sends the subscribe request:
    when a room id is set, the effects are the unsubscribe request, the
    detachment of the old key and then the subscribe request, and afterwards
    no handler is left under the old key and the identity fields are null. *)
Lemma renew_unsubscribes_first (w : world) (fltrs : value) (f : fn) :
  subscribing (self w) = false ->
  truthy (roomId (self w)) = true ->
  exists w',
    renew fltrs (VFun f) w = (Returned tt, w') /\
    log w' = log w ++ [off_request (set_filters fltrs (self w));
                       SocketOff (roomId (self w));
                       on_request (set_filters fltrs (self w)) fltrs f] /\
    filter (fun b => same_key (fst b) (roomId (self w))) (socket (kuzzle w')) = [] /\
    roomId (self w') = VNull /\
    subscriptionId (self w') = VNull /\
    subscriptionTimestamp (self w') = VNull.
Proof.
  intros Hs Ht. exists (renewed fltrs f w).
  split; [now apply renew_proceeds|].
  unfold renewed. rewrite Ht. cbn [log self kuzzle detached socket].
  split; [reflexivity|]. split; [apply detached_has_no_handler|].
  repeat split.
Qed.

(** C2 (as amended): when the subscribe request issued by [renew] completes
    with an error, its callback throws
    [Error('Error during Kuzzle subscription: ' + error)] and clears nothing:
    the instance is exactly as [renew] left it, with [subscribing] still
    true, so that later [count], [renew] and [unsubscribe] calls are only
    queued. *)
Theorem subscribe_error_keeps_subscribing (w : world) (fltrs : value) (f : fn)
  (fuel : nat) (now : Z) (error response : value) :
  subscribing (self w) = false ->
  truthy error = true ->
  exists w1,
    renew fltrs (VFun f) w = (Returned tt, w1) /\
    respond fuel now "on" error response w1
    = (Threw (Error "Error during Kuzzle subscription: " error), w1) /\
    subscribing (self w1) = true /\
    (forall g, exists w2,
        (count (VFun g) ;; renew fltrs (VFun g) ;; unsubscribe) w1
        = (Returned tt, w2) /\
        log w2 = log w1 /\
        subscribing (self w2) = true /\
        queue (self w2)
        = queue (self w1) ++
          [{| action := "count"; args := [VFun g] |};
           {| action := "renew"; args := [fltrs; VFun g] |};
           {| action := "unsubscribed"; args := [] |}]).
Proof.
  intros Hs He. exists (renewed fltrs f w).
  split; [now apply renew_proceeds|].
  pose proof (renewed_subscribing fltrs f w) as Hsub.
  split; [|split; [exact Hsub|]].
  - unfold respond. rewrite renewed_last_request.
    unfold run_callback. now rewrite He.
  - intros g. eexists. split.
    + unfold bind at 1. unfold count at 1, bind at 1, callbackRequired, ret at 1.
      unfold bind at 1, this at 1. rewrite Hsub. unfold push, update at 1.
      unfold bind at 1. rewrite renew_queued by exact Hsub.
      rewrite unsubscribe_queued by exact Hsub. reflexivity.
    + cbn. rewrite Hsub. repeat split. now rewrite <- !app_assoc.
Qed.

Lemma subscribe_error_keeps_subscribing_witness :
  exists w1,
    renew Sample.someFilters (VFun Sample.cb1) Sample.idle
    = (Returned tt, w1) /\
    respond 1 1000 "on" (VStr "boom") VUndefined w1
    = (Threw (Error "Error during Kuzzle subscription: " (VStr "boom")), w1) /\
    subscribing (self w1) = true /\
    (forall g, exists w2,
        (count (VFun g) ;; renew Sample.someFilters (VFun g) ;; unsubscribe) w1
        = (Returned tt, w2) /\
        log w2 = log w1 /\
        subscribing (self w2) = true /\
        queue (self w2)
        = queue (self w1) ++
          [{| action := "count"; args := [VFun g] |};
           {| action := "renew"; args := [Sample.someFilters; VFun g] |};
           {| action := "unsubscribed"; args := [] |}]).
Proof.
  apply (subscribe_error_keeps_subscribing Sample.idle
           Sample.someFilters Sample.cb1 1 1000 (VStr "boom") VUndefined);
    reflexivity.
Defined.

(** C2 fails as stated: after a subscribe request that completes with an
    error the flag is still set, and a later [count] is queued instead of
    sent. *)
Lemma subscribe_error_locks_instance :
  let w1 := snd (renew Sample.someFilters (VFun Sample.cb1)
                   Sample.idle) in
  let r := respond 1 1000 "on" (VStr "boom") VUndefined w1 in
  let w2 := snd (count (VFun Sample.cb2) (snd r)) in
  fst r = Threw (Error "Error during Kuzzle subscription: " (VStr "boom")) /\
  subscribing (self (snd r)) = true /\
  subscribing (self w2) = true /\
  log w2 = log w1 /\
  queue (self w2) = [{| action := "count"; args := [VFun Sample.cb2] |}].
Proof.
  vm_compute. repeat split; reflexivity.
Qed.

(** C3 (as amended): when the subscribe request issued by [renew] completes
    with an error, its callback throws and commits nothing more, but what
    [renew] did before sending the request stays: [filters] holds the new
    filters, and a prior subscription with a truthy [roomId] is gone
    ([roomId], [subscriptionId] and [subscriptionTimestamp] are null and no
    handler is bound under the old room id).  Only where there was no such
    subscription are these three fields and the transport bindings what they
    were before the [renew] call. *)
Theorem subscribe_error_keeps_renew_effects (w : world) (fltrs : value)
  (f : fn) (fuel : nat) (now : Z) (error response : value) :
  subscribing (self w) = false ->
  truthy error = true ->
  exists w1,
    renew fltrs (VFun f) w = (Returned tt, w1) /\
    respond fuel now "on" error response w1
    = (Threw (Error "Error during Kuzzle subscription: " error), w1) /\
    filters (self w1) = fltrs /\
    (truthy (roomId (self w)) = true ->
     roomId (self w1) = VNull /\
     subscriptionId (self w1) = VNull /\
     subscriptionTimestamp (self w1) = VNull /\
     filter (fun b => same_key (fst b) (roomId (self w))) (socket (kuzzle w1)) = []) /\
    (truthy (roomId (self w)) = false ->
     roomId (self w1) = roomId (self w) /\
     subscriptionId (self w1) = subscriptionId (self w) /\
     subscriptionTimestamp (self w1) = subscriptionTimestamp (self w) /\
     socket (kuzzle w1) = socket (kuzzle w)).
Proof.
  intros Hs He. exists (renewed fltrs f w).
  split; [now apply renew_proceeds|]. split.
  - unfold respond. rewrite renewed_last_request.
    unfold run_callback. now rewrite He.
  - unfold renewed.
    destruct (truthy (roomId (self w))) eqn:Ht; cbn [self kuzzle];
      (split; [reflexivity|]); split; intros Hx; try discriminate.
    + repeat split. apply detached_has_no_handler.
    + repeat split.
Qed.

Lemma subscribe_error_keeps_renew_effects_witness :
  exists w1,
    renew (VObj [("field", VStr "y")]) (VFun Sample.cb2) Sample.active
    = (Returned tt, w1) /\
    respond 1 2000 "on" (VStr "boom") VUndefined w1
    = (Threw (Error "Error during Kuzzle subscription: " (VStr "boom")), w1) /\
    filters (self w1) = VObj [("field", VStr "y")] /\
    (truthy (roomId (self Sample.active)) = true ->
     roomId (self w1) = VNull /\
     subscriptionId (self w1) = VNull /\
     subscriptionTimestamp (self w1) = VNull /\
     filter (fun b => same_key (fst b) (roomId (self Sample.active)))
            (socket (kuzzle w1)) = []) /\
    (truthy (roomId (self Sample.active)) = false ->
     roomId (self w1) = roomId (self Sample.active) /\
     subscriptionId (self w1) = subscriptionId (self Sample.active) /\
     subscriptionTimestamp (self w1)
     = subscriptionTimestamp (self Sample.active) /\
     socket (kuzzle w1) = socket (kuzzle Sample.active)).
Proof.
  apply (subscribe_error_keeps_renew_effects Sample.active
           (VObj [("field", VStr "y")]) Sample.cb2 1 2000 (VStr "boom")
           VUndefined); reflexivity.
Defined.

(** C3 fails as stated: a [renew] on an active subscription whose subscribe
    request fails leaves new filters, null identity fields and no transport
    binding, where before the call there were the old filters, room ['r1'],
    subscription ['s1'] and a bound handler. *)
Lemma subscribe_error_after_renew_changed_state :
  let before := Sample.active in
  let r := (renew (VObj [("field", VStr "y")]) (VFun Sample.cb2) ;;
            respond 1 2000 "on" (VStr "boom") VUndefined) before in
  fst r = Threw (Error "Error during Kuzzle subscription: " (VStr "boom")) /\
  (filters (self before) = VObj [("field", VStr "x")] /\
   filters (self (snd r)) = VObj [("field", VStr "y")]) /\
  (roomId (self before) = VStr "r1" /\ roomId (self (snd r)) = VNull) /\
  (subscriptionId (self before) = VStr "s1" /\
   subscriptionId (self (snd r)) = VNull) /\
  (subscriptionTimestamp (self before) = VNum 1000 /\
   subscriptionTimestamp (self (snd r)) = VNull) /\
  (socket (kuzzle before) = [(VStr "r1", Notify Sample.cb1)] /\
   socket (kuzzle (snd r)) = []).
Proof.
  vm_compute. repeat split; reflexivity.
Qed.

(** ** Draining the queue *)

Lemma count_queued (w : world) (f : fn) :
  subscribing (self w) = true ->
  count (VFun f) w
  = (Returned tt, with_self w (set_queue (queue (self w) ++ [count_entry f]) (self w))).
Proof.
  intros Hs. unfold count, bind, callbackRequired, ret, this. now rewrite Hs.
Qed.

Lemma count_sent (w : world) (f : fn) :
  subscribing (self w) = false ->
  count (VFun f) w = (Returned tt, logged w [count_request (self w) f]).
Proof.
  intros Hs. unfold count, bind, callbackRequired, ret, this. now rewrite Hs.
Qed.

Lemma count_all_queued (fs : list fn) (w : world) :
  subscribing (self w) = true ->
  count_all fs w
  = (Returned tt,
     with_self w (set_queue (queue (self w) ++ map count_entry fs) (self w))).
Proof.
  revert w. induction fs as [|f fs IH]; intros w Hs.
  - simpl. rewrite app_nil_r. destruct w as [r k l]. now destruct r.
  - simpl. unfold bind. rewrite count_queued by exact Hs.
    rewrite IH by exact Hs. cbn. now rewrite <- app_assoc.
Qed.

(** A queue of [count] entries is replayed in order of arrival: with a unit of
    fuel for each entry, [dequeue] returns, the queue is empty and the count
    requests have been sent first in, first out. *)
Lemma dequeue_counts (fs : list fn) (fuel : nat) (w : world) :
  queue (self w) = map count_entry fs ->
  subscribing (self w) = false ->
  (List.length fs <= fuel)%nat ->
  dequeue fuel w
  = (Returned tt,
     {| self := set_queue [] (self w);
        kuzzle := kuzzle w;
        log := log w ++ map (count_request (self w)) fs |}).
Proof.
  revert fuel w. induction fs as [|f fs IH]; intros fuel w Hq Hs Hlen.
  - destruct fuel; simpl; rewrite Hq; simpl; rewrite app_nil_r;
      destruct w as [r k l]; destruct r; simpl in *; now subst.
  - destruct fuel as [|n]; [simpl in Hlen; lia|].
    simpl in Hlen. simpl dequeue. rewrite Hq. simpl map.
    unfold bind at 1, update at 1.
    unfold bind at 1. unfold invoke. cbn [action args count_entry arg nth].
    change (prototype "count") with (Some m_count). cbv iota.
    rewrite count_sent by exact Hs.
    rewrite IH; [|reflexivity|exact Hs|lia].
    cbn. rewrite <- app_assoc. reflexivity.
Qed.

(** C4 (as amended): after a [renew] whose subscribe request completes
    successfully with a response carrying a non-null [roomId] and [roomName],
    and during which only [count] calls were queued, the response is processed
    to the end and [roomId], [subscriptionId] and [subscriptionTimestamp] are
    all non-null and [subscribing] is false. *)
Theorem renew_success_sets_identity (w : world) (fltrs : value) (f : fn)
  (fs : list fn) (fuel : nat) (now : Z) (error response rid rname : value) :
  subscribing (self w) = false ->
  queue (self w) = [] ->
  truthy error = false ->
  get response "roomId" = Some rid -> nullish rid = false ->
  get response "roomName" = Some rname -> nullish rname = false ->
  (List.length fs <= fuel)%nat ->
  exists w',
    (renew fltrs (VFun f) ;; count_all fs ;;
     respond fuel now "on" error response) w = (Returned tt, w') /\
    roomId (self w') = rid /\ nullish (roomId (self w')) = false /\
    subscriptionId (self w') = rname /\ nullish (subscriptionId (self w')) = false /\
    subscriptionTimestamp (self w') = VNum now /\
    nullish (subscriptionTimestamp (self w')) = false /\
    subscribing (self w') = false.
Proof.
  intros Hs Hq He Hrid Hn1 Hrn Hn2 Hlen.
  unfold bind at 1. rewrite renew_proceeds by exact Hs.
  unfold bind at 1.
  rewrite count_all_queued by apply renewed_subscribing.
  unfold respond. cbn [with_self log]. rewrite renewed_last_request.
  unfold run_callback. rewrite He. unfold prop. rewrite Hrid, Hrn.
  unfold bind at 1, ret at 1. unfold bind at 1, update at 1.
  unfold bind at 1, ret at 1. unfold bind at 1, update at 1.
  unfold bind at 1, update at 1. unfold bind at 1, update at 1.
  unfold bind at 1.
  rewrite (dequeue_counts fs fuel).
  - cbn. eexists. split; [reflexivity|]. cbn. repeat split; assumption.
  - cbn. unfold renewed. destruct (truthy (roomId (self w))); cbn; now rewrite Hq.
  - reflexivity.
  - exact Hlen.
Qed.

Lemma renew_success_sets_identity_witness :
  exists w',
    (renew Sample.someFilters (VFun Sample.cb1) ;;
     count_all [Sample.cb2; Sample.cb3] ;;
     respond 2 1000 "on" VNull (Sample.subscribed "r1" "s1")) Sample.idle
    = (Returned tt, w') /\
    roomId (self w') = VStr "r1" /\ nullish (roomId (self w')) = false /\
    subscriptionId (self w') = VStr "s1" /\
    nullish (subscriptionId (self w')) = false /\
    subscriptionTimestamp (self w') = VNum 1000 /\
    nullish (subscriptionTimestamp (self w')) = false /\
    subscribing (self w') = false.
Proof.
  apply (renew_success_sets_identity Sample.idle Sample.someFilters
           Sample.cb1 [Sample.cb2; Sample.cb3] 2 1000 VNull
           (Sample.subscribed "r1" "s1") (VStr "r1") (VStr "s1"));
    reflexivity.
Defined.

(** C4 fails as stated: with a second [renew] queued behind the first, the
    successful response to the first is processed to the end, and afterwards
    the three identity fields are null again and [subscribing] is true. *)
Lemma renew_success_with_queued_renew :
  let r := (renew Sample.someFilters (VFun Sample.cb1) ;;
            renew (VObj [("field", VStr "y")]) (VFun Sample.cb2) ;;
            respond 5 1000 "on" VNull (Sample.subscribed "r1" "s1"))
             Sample.idle in
  fst r = Returned tt /\
  roomId (self (snd r)) = VNull /\
  subscriptionId (self (snd r)) = VNull /\
  subscriptionTimestamp (self (snd r)) = VNull /\
  subscribing (self (snd r)) = true.
Proof.
  vm_compute. repeat split; reflexivity.
Qed.

(** An entry whose action names no method stops the loop with a TypeError;
    the entry has been shifted off the queue, the rest stays. *)
Lemma dequeue_unknown_action (n : nat) (w : world) (e : qentry)
  (rest : list qentry) :
  queue (self w) = e :: rest ->
  prototype (action e) = None ->
  dequeue (S n) w
  = (Threw (TypeError ("Cannot read property apply of undefined: " ++ action e)),
     with_self w (set_queue rest (self w))).
Proof.
  intros Hq Hp. simpl. rewrite Hq.
  unfold bind, update, invoke. cbn [self]. now rewrite Hp.
Qed.

(** While [subscribing] is set, a queue holding one [count] entry is never
    emptied: every turn of the loop shifts the entry and pushes it back. *)
Lemma dequeue_spins (n : nat) (w : world) (f : fn) :
  subscribing (self w) = true ->
  queue (self w) = [count_entry f] ->
  fst (dequeue n w) = OutOfFuel.
Proof.
  revert w. induction n as [|n IH]; intros w Hs Hq.
  - simpl. now rewrite Hq.
  - simpl. rewrite Hq. unfold bind at 1, update at 1.
    unfold bind at 1. unfold invoke. cbn [action args count_entry arg nth].
    change (prototype "count") with (Some m_count). cbv iota.
    rewrite count_queued by exact Hs.
    apply IH; reflexivity || exact Hs.
Qed.

(** C1, at the failing input [renew(f, cb1); unsubscribe(); count(cb2)]
    followed by a successful subscribe response: the three calls reach the
    network as one subscribe request and two queue entries, the entry left by
    [unsubscribe] carries the action ['unsubscribed'], which names no method,
    and replaying it throws a TypeError; [unsubscribe] is not replayed, the
    [count] behind it is never sent and the handler is never bound. *)
Theorem queued_unsubscribe_is_not_replayed :
  let calls := renew Sample.someFilters (VFun Sample.cb1) ;;
               unsubscribe ;;
               count (VFun Sample.cb2) in
  let w1 := snd (calls Sample.idle) in
  let r := respond 5 1000 "on" VNull (Sample.subscribed "r1" "s1") w1 in
  log w1 = [on_request (self Sample.idle) Sample.someFilters Sample.cb1] /\
  queue (self w1) = [{| action := "unsubscribed"; args := [] |};
                     count_entry Sample.cb2] /\
  prototype "unsubscribed" = None /\
  fst r = Threw (TypeError "Cannot read property apply of undefined: unsubscribed") /\
  log (snd r) = log w1 /\
  queue (self (snd r)) = [count_entry Sample.cb2] /\
  roomId (self (snd r)) = VStr "r1" /\
  socket (kuzzle (snd r)) = [].
Proof.
  vm_compute. repeat split; reflexivity.
Qed.

Lemma renewed_queue (fltrs : value) (f : fn) (w : world) :
  queue (self (renewed fltrs f w)) = queue (self w).
Proof. unfold renewed. now destruct (truthy (roomId (self w))). Qed.

(** A [renew] entry in front of a [count] entry: the replayed [renew] sets
    [subscribing] again, and from then on the loop only moves the [count]
    entry around. *)
Lemma dequeue_renew_then_count (n : nat) (w : world) (fltrs : value)
  (f g : fn) :
  subscribing (self w) = false ->
  queue (self w) = [{| action := "renew"; args := [fltrs; VFun f] |};
                    count_entry g] ->
  fst (dequeue (S n) w) = OutOfFuel.
Proof.
  intros Hs Hq. simpl dequeue. rewrite Hq.
  unfold bind at 1, update at 1. unfold bind at 1.
  unfold invoke. cbn [action args arg nth].
  change (prototype "renew") with (Some m_renew). cbv iota.
  rewrite renew_proceeds by exact Hs.
  apply (dequeue_spins n _ g).
  - apply renewed_subscribing.
  - now rewrite renewed_queue.
Qed.

(** A [renew] queued in front of a [count] makes the loop of [dequeue] run
    for ever: whatever the fuel, the response is never processed to the
    end. *)
Lemma queued_renew_then_count_never_returns (fuel : nat) :
  fst ((renew Sample.someFilters (VFun Sample.cb1) ;;
        renew (VObj [("field", VStr "y")]) (VFun Sample.cb2) ;;
        count (VFun Sample.cb3) ;;
        respond fuel 1000 "on" VNull (Sample.subscribed "r1" "s1"))
         Sample.idle) = OutOfFuel.
Proof.
  destruct fuel as [|n]; [reflexivity|].
  cbn -[dequeue]. unfold bind at 1.
  match goal with
  | |- context [dequeue (S n) ?W] =>
      pose proof (dequeue_renew_then_count n W (VObj [("field", VStr "y")])
                    Sample.cb2 Sample.cb3 eq_refl eq_refl) as H;
      destruct (dequeue (S n) W) as [o w']
  end.
  simpl in H. subst o. reflexivity.
Qed.

(** C6, at the failing input of two back-to-back [renew] calls, each answered
    successfully: the second call is replayed by [dequeue] inside the first
    response, before the first handler is bound, so its unsubscribe step
    detaches nothing and resets [roomId]; the first handler is then bound
    under [null], the second under ['r2'], and both stay registered. *)
Theorem back_to_back_renew_leaves_two_handlers :
  let r := (renew Sample.someFilters (VFun Sample.cb1) ;;
            renew (VObj [("field", VStr "y")]) (VFun Sample.cb2) ;;
            respond 5 1000 "on" VNull (Sample.subscribed "r1" "s1") ;;
            respond 5 2000 "on" VNull (Sample.subscribed "r2" "s2"))
             Sample.idle in
  fst r = Returned tt /\
  socket (kuzzle (snd r)) = [(VNull, Notify Sample.cb1);
                             (VStr "r2", Notify Sample.cb2)] /\
  log (snd r)
  = [Query (VStr "books") "subscribe" "on"
       (AddHeaders (VObj [("body", VObj [("field", VStr "x")])]) (VObj []))
       (Some (RenewCb Sample.cb1));
     Query (VStr "books") "subscribe" "off"
       (AddHeaders (VObj [("requestId", VStr "s1")]) (VObj [])) None;
     SocketOff (VStr "r1");
     Query (VStr "books") "subscribe" "on"
       (AddHeaders (VObj [("body", VObj [("field", VStr "y")])]) (VObj []))
       (Some (RenewCb Sample.cb2));
     SocketOn VNull (Notify Sample.cb1);
     SocketOn (VStr "r2") (Notify Sample.cb2)] /\
  roomId (self (snd r)) = VStr "r2" /\
  filters (self (snd r)) = VObj [("field", VStr "y")] /\
  deliver VNull (Sample.message "update") (snd r)
  = (Returned tt,
     logged (snd r) [Call 1 [VNull; VObj [("action", VStr "update")]]]).
Proof.
  vm_compute. repeat split; reflexivity.
Qed.

(** ** The scenario of a connection notification *)

Lemma dequeue_empty (fuel : nat) (w : world) :
  queue (self w) = [] -> dequeue fuel w = (Returned tt, w).
Proof. intros Hq. destruct fuel; simpl; now rewrite Hq. Qed.

(** The [forEach] over a global listener list calls every listener, in list
    order, with the subscription id and the result. *)
Lemma for_each_listener (ls : list nat) (res : value) (w : world) :
  fold_right
    (fun listener rest =>
       r <- this ;; emit (Call listener [subscriptionId r; res]) ;; rest)
    (ret tt) ls w
  = (Returned tt,
     logged w (map (fun l => Call l [subscriptionId (self w); res]) ls)).
Proof.
  revert w. induction ls as [|l ls IH]; intros w.
  - simpl. now rewrite logged_nil.
  - simpl. unfold bind at 1, this at 1. unfold bind at 1, emit at 1.
    rewrite IH. unfold logged. cbn. now rewrite <- app_assoc.
Qed.

(** C9 fails as stated.  With the responses
    [{result: {roomId: 'r1', roomName: 's1'}}] and [{count: 3}] handed to the
    callbacks as they are, [response.roomId] is [undefined], the handler is
    bound under [undefined] and the message on ['r1'] reaches nobody; handed
    over as their [result] payload, the count is [undefined]; handed over as
    the [result] payload where there is one and whole otherwise, the count is
    the object [{count: 3}].  In no case is [cb1] called with
    [(null, {action: 'on', count: 3})]. *)
Lemma connection_scenario_as_stated :
  let subscribeResponse := VObj [("result", Sample.subscribed "r1" "s1")] in
  let countResponse := VObj [("count", VNum 3)] in
  let expected := Call 1 [VNull; VObj [("action", VStr "on"); ("count", VNum 3)]] in
  let a := connection_scenario whole_response subscribeResponse countResponse in
  let b := connection_scenario result_payload subscribeResponse countResponse in
  let c := connection_scenario payload_or_response subscribeResponse countResponse in
  (fst a = Returned tt /\
   roomId (self (snd a)) = VUndefined /\
   log (snd a)
   = [on_request (self Sample.fresh) (VObj [("field", VStr "x")]) Sample.cb1;
      SocketOn VUndefined (Notify Sample.cb1)] /\
   ~ In expected (log (snd a))) /\
  (fst b = Returned tt /\
   (exists e1 e2 e3,
      log (snd b)
      = [e1; e2; e3;
         Call 1 [VNull; VObj [("action", VStr "on"); ("count", VUndefined)]]]) /\
   ~ In expected (log (snd b))) /\
  (fst c = Returned tt /\
   (exists e1 e2 e3,
      log (snd c)
      = [e1; e2; e3;
         Call 1 [VNull; VObj [("action", VStr "on");
                              ("count", VObj [("count", VNum 3)])]]]) /\
   ~ In expected (log (snd c))).
Proof.
  vm_compute. split; [|split; split; [|split| |split]].
  - repeat split. intros [H | [H | []]]; discriminate H.
  - reflexivity.
  - do 3 eexists. reflexivity.
  - intros [H | [H | [H | [H | []]]]]; discriminate H.
  - reflexivity.
  - do 3 eexists. reflexivity.
  - intros [H | [H | [H | [H | []]]]]; discriminate H.
Qed.

(** A successful subscribe response processed while only [count] entries are
    queued. *)
Lemma renew_response_with_counts (w : world) (f : fn) (fs : list fn)
  (fuel : nat) (now : Z) (error response rid rname : value) :
  queue (self w) = map count_entry fs ->
  truthy error = false ->
  get response "roomId" = Some rid ->
  get response "roomName" = Some rname ->
  (List.length fs <= fuel)%nat ->
  let r := set_subscribing false
             (set_subscriptionTimestamp (VNum now)
                (set_subscriptionId rname (set_roomId rid (self w)))) in
  run_callback fuel now (RenewCb f) error response w
  = (Returned tt,
     {| self := set_queue [] r;
        kuzzle := {| socket := socket (kuzzle w) ++ [(rid, Notify f)];
                     eventListeners := eventListeners (kuzzle w);
                     valid := valid (kuzzle w) |};
        log := log w ++ map (count_request r) fs ++ [SocketOn rid (Notify f)] |}).
Proof.
  intros Hq He Hrid Hrn Hlen r.
  unfold run_callback. rewrite He. unfold prop. rewrite Hrid, Hrn.
  unfold bind at 1, ret at 1. unfold bind at 1, update at 1.
  unfold bind at 1, ret at 1. unfold bind at 1, update at 1.
  unfold bind at 1, update at 1. unfold bind at 1, update at 1.
  unfold bind at 1.
  rewrite (dequeue_counts fs fuel); [|exact Hq|reflexivity|exact Hlen].
  cbn. unfold socket_on. cbn. subst r. rewrite <- app_assoc. reflexivity.
Qed.

(** C9 (as amended): a room constructed with [listeningToConnections = true];
    [renew({field: 'x'}, cb1)]; the subscribe callback receives
    [{roomId: 'r1', roomName: 's1'}]; the message [{result: {action: 'on'}}]
    arrives on channel ['r1']; the count callback receives [3].  Then [cb1] is
    called with [(null, {action: 'on', count: 3})], right after the subscribe
    request, the binding of ['r1'] and the count request, and before the
    global listeners of ['subscribed']. *)
Theorem connection_scenario_unwrapped (dc : DataCollection) (k : Kuzzle)
  (h : value) (ls : list nat) (fuel1 fuel2 : nat) (now1 now2 : Z) (id : nat) :
  valid k = true ->
  json_copy (dc_headers dc) = Some h ->
  socket k = [] ->
  listeners_of k "subscribed" = Some ls ->
  let augmented := VObj [("action", VStr "on"); ("count", VNum 3)] in
  exists r w',
    KuzzleRoom (Some dc) (VObj [("listeningToConnections", VBool true)]) k = inr r /\
    (renew (VObj [("field", VStr "x")]) (VFun (UserFn id)) ;;
     respond fuel1 now1 "on" VNull
       (VObj [("roomId", VStr "r1"); ("roomName", VStr "s1")]) ;;
     deliver (VStr "r1") (VObj [("result", VObj [("action", VStr "on")])]) ;;
     respond fuel2 now2 "count" VNull (VNum 3))
      {| self := r; kuzzle := k; log := [] |} = (Returned tt, w') /\
    log w'
    = [on_request r (VObj [("field", VStr "x")]) (UserFn id);
       SocketOn (VStr "r1") (Notify (UserFn id));
       Query (dc_collection dc) "subscribe" "count"
         (AddHeaders (VObj [("body", VObj [("roomId", VStr "r1")])]) h)
         (Some (CountCb (LifecycleK (UserFn id) "subscribed" (VBool true)
                           (VObj [("result", VObj [("action", VStr "on")])]))));
       Call id [VNull; augmented]] ++
      map (fun l => Call l [VStr "s1"; augmented]) ls.
Proof.
  intros Hv Hh Hsock Hl augmented.
  unfold KuzzleRoom. rewrite Hv, Hh.
  destruct k as [sock evl vld]. cbn [socket valid] in *. subst sock vld.
  unfold listeners_of in Hl. cbn [eventListeners] in Hl.
  eexists. eexists. split; [reflexivity|].
  unfold bind at 1. rewrite renew_proceeds by reflexivity.
  unfold bind at 1. unfold respond at 1. rewrite renewed_last_request.
  rewrite (renew_response_with_counts _ _ [] fuel1 now1 VNull _
             (VStr "r1") (VStr "s1"));
    [|now rewrite renewed_queue|reflexivity|reflexivity|reflexivity|simpl; lia].
  unfold renewed. cbn [self roomId truthy kuzzle log socket eventListeners valid
                       map app].
  unfold bind at 1. unfold deliver at 1.
  cbn [kuzzle socket filter fst same_key String.eqb Ascii.eqb Bool.eqb
       fold_right snd].
  unfold bind at 1.
  unfold notify, prop, bind, ret, this, count, callbackRequired, query, emit.
  cbn -[listeners_of].
  unfold bind at 1, listeners at 1, listeners_of. cbn [kuzzle eventListeners].
  rewrite Hl. rewrite for_each_listener.
  split; reflexivity.
Qed.

Lemma connection_scenario_unwrapped_witness :
  let augmented := VObj [("action", VStr "on"); ("count", VNum 3)] in
  exists r w',
    KuzzleRoom (Some Sample.books)
      (VObj [("listeningToConnections", VBool true)]) Sample.client = inr r /\
    (renew (VObj [("field", VStr "x")]) (VFun (UserFn 1)) ;;
     respond 1 1000 "on" VNull
       (VObj [("roomId", VStr "r1"); ("roomName", VStr "s1")]) ;;
     deliver (VStr "r1") (VObj [("result", VObj [("action", VStr "on")])]) ;;
     respond 1 1001 "count" VNull (VNum 3))
      {| self := r; kuzzle := Sample.client; log := [] |} = (Returned tt, w') /\
    log w'
    = [on_request r (VObj [("field", VStr "x")]) (UserFn 1);
       SocketOn (VStr "r1") (Notify (UserFn 1));
       Query (dc_collection Sample.books) "subscribe" "count"
         (AddHeaders (VObj [("body", VObj [("roomId", VStr "r1")])]) (VObj []))
         (Some (CountCb (LifecycleK (UserFn 1) "subscribed" (VBool true)
                           (VObj [("result", VObj [("action", VStr "on")])]))));
       Call 1 [VNull; augmented]] ++
      map (fun l => Call l [VStr "s1"; augmented]) [].
Proof.
  apply (connection_scenario_unwrapped Sample.books Sample.client (VObj []) []
           1 1 1000 1001 1); reflexivity.
Defined.

(** * Further properties of the methods *)

(** ** Queueing *)

Lemma perform_queued (c : call) (w : world) :
  subscribing (self w) = true ->
  has_callback c = true ->
  perform c w
  = (Returned tt,
     with_self w (set_queue (queue (self w) ++ [entry_of c]) (self w))).
Proof.
  intros Hs Hc. destruct c as [fltrs cb|cb|]; simpl.
  - now apply renew_queued.
  - destruct cb; try discriminate Hc. now apply count_queued.
  - now apply unsubscribe_queued.
Qed.

Lemma perform_all_queued (cs : list call) (w : world) :
  subscribing (self w) = true ->
  forallb has_callback cs = true ->
  perform_all cs w
  = (Returned tt,
     with_self w (set_queue (queue (self w) ++ map entry_of cs) (self w))).
Proof.
  revert w. induction cs as [|c cs IH]; intros w Hs Hc.
  - simpl. rewrite app_nil_r. destruct w as [r k l]. now destruct r.
  - simpl in Hc. apply andb_true_iff in Hc as [Hc Hcs].
    simpl. unfold bind. rewrite perform_queued by assumption.
    rewrite IH by assumption. cbn. now rewrite <- app_assoc.
Qed.

(** X1: while [subscribing] is set, any series of [renew], [count] (with a
    function) and [unsubscribe] calls returns without a request, without a
    change of the transport and without touching any other field: the world
    afterwards is the world before with the entries of the calls appended to
    the queue, in call order, and nothing else. *)
Theorem calls_while_subscribing_only_queue (cs : list call) (w : world) :
  subscribing (self w) = true ->
  forallb has_callback cs = true ->
  let w' := with_self w (set_queue (queue (self w) ++ map entry_of cs) (self w)) in
  perform_all cs w = (Returned tt, w') /\
  log w' = log w /\
  kuzzle w' = kuzzle w /\
  queue (self w') = queue (self w) ++ map entry_of cs /\
  set_queue (queue (self w)) (self w') = self w.
Proof.
  intros Hs Hc w'. subst w'. split; [now apply perform_all_queued|].
  repeat split. cbn. now destruct (self w).
Qed.

Lemma calls_while_subscribing_only_queue_witness :
  let w := snd (renew Sample.someFilters (VFun Sample.cb1) Sample.idle) in
  let cs := [CallCount (VFun Sample.cb2); CallUnsubscribe;
             CallRenew (VObj []) VUndefined] in
  let w' := with_self w (set_queue (queue (self w) ++ map entry_of cs) (self w)) in
  perform_all cs w = (Returned tt, w') /\
  log w' = log w /\
  kuzzle w' = kuzzle w /\
  queue (self w') = queue (self w) ++ map entry_of cs /\
  set_queue (queue (self w)) (self w') = self w.
Proof.
  apply (calls_while_subscribing_only_queue
           [CallCount (VFun Sample.cb2); CallUnsubscribe;
            CallRenew (VObj []) VUndefined]
           (snd (renew Sample.someFilters (VFun Sample.cb1) Sample.idle)));
    reflexivity.
Defined.

(** ** The callback check *)

(** X2: without a function as callback, [count] throws in every state, also
    while subscribing, and [renew] throws when it is not subscribing; both
    leave the instance, the transport and the effects as they were: [count]
    queues nothing and [renew] has neither replaced the filters nor
    unsubscribed. *)
Theorem missing_callback_throws_first (w : world) (fltrs cb : value) :
  is_function cb = false ->
  count cb w
  = (Threw (Error "KuzzleRoom.count: a callback argument is required" cb), w) /\
  (subscribing (self w) = false ->
   renew fltrs cb w
   = (Threw (Error "KuzzleRoom.renew: a callback argument is required" cb), w)).
Proof.
  intros Hf. split.
  - unfold count, bind, callbackRequired. destruct cb; try discriminate Hf;
      reflexivity.
  - intros Hs. unfold renew, bind at 1, this at 1. rewrite Hs.
    unfold bind, callbackRequired. destruct cb; try discriminate Hf;
      reflexivity.
Qed.

Lemma missing_callback_throws_first_witness :
  count VUndefined Sample.active
  = (Threw (Error "KuzzleRoom.count: a callback argument is required" VUndefined),
     Sample.active) /\
  (subscribing (self Sample.active) = false ->
   renew (VObj []) VUndefined Sample.active
   = (Threw (Error "KuzzleRoom.renew: a callback argument is required" VUndefined),
      Sample.active)).
Proof.
  apply (missing_callback_throws_first Sample.active (VObj []) VUndefined).
  reflexivity.
Defined.

(** X3: while subscribing, [renew] queues its arguments before any check, so
    a call without a function as callback is accepted; the error is thrown
    when the entry is replayed, inside the processing of the subscribe
    response of the renewal in flight: the identity of the new subscription is
    stored, the entries queued behind stay in the queue, nothing more is sent
    and the notification handler is never bound. *)
Theorem queued_renew_without_callback (w : world) (fltrs0 fltrs cb : value)
  (f : fn) (cs : list call) (fuel : nat) (now : Z)
  (error response rid rname : value) :
  is_function cb = false ->
  forallb has_callback cs = true ->
  subscribing (self w) = false ->
  queue (self w) = [] ->
  truthy error = false ->
  get response "roomId" = Some rid ->
  get response "roomName" = Some rname ->
  exists w',
    (renew fltrs0 (VFun f) ;; renew fltrs cb ;; perform_all cs ;;
     respond (S fuel) now "on" error response) w
    = (Threw (Error "KuzzleRoom.renew: a callback argument is required" cb), w') /\
    roomId (self w') = rid /\ subscriptionId (self w') = rname /\
    subscribing (self w') = false /\
    queue (self w') = map entry_of cs /\
    log w' = log (renewed fltrs0 f w) /\
    socket (kuzzle w') = socket (kuzzle (renewed fltrs0 f w)).
Proof.
  intros Hf Hc Hs Hq He Hrid Hrn.
  pose proof (renewed_subscribing fltrs0 f w) as Hsub.
  unfold bind at 1. rewrite renew_proceeds by exact Hs.
  unfold bind at 1. rewrite renew_queued by exact Hsub.
  unfold bind at 1. rewrite perform_all_queued by assumption.
  unfold respond. cbn [with_self log]. rewrite renewed_last_request.
  cbn [with_self self queue set_queue]. rewrite renewed_queue, Hq.
  unfold run_callback. rewrite He. unfold prop. rewrite Hrid, Hrn.
  unfold bind at 1, ret at 1. unfold bind at 1, update at 1.
  unfold bind at 1, ret at 1. unfold bind at 1, update at 1.
  unfold bind at 1, update at 1. unfold bind at 1, update at 1.
  unfold bind at 1. simpl dequeue.
  unfold bind at 1, update at 1. unfold bind at 1. unfold invoke.
  cbn [action args arg nth].
  change (prototype "renew") with (Some m_renew). cbv iota.
  unfold renew, bind at 1, this at 1. cbn [self subscribing set_subscribing
    set_queue].
  unfold bind, callbackRequired.
  destruct cb; try discriminate Hf; eexists; (split; [reflexivity|]);
    cbn; repeat split.
Qed.

Lemma queued_renew_without_callback_witness :
  exists w',
    (renew Sample.someFilters (VFun Sample.cb1) ;;
     renew (VObj []) VNull ;;
     perform_all [CallCount (VFun Sample.cb2)] ;;
     respond 1 1000 "on" VNull (Sample.subscribed "r1" "s1")) Sample.idle
    = (Threw (Error "KuzzleRoom.renew: a callback argument is required" VNull),
       w') /\
    roomId (self w') = VStr "r1" /\ subscriptionId (self w') = VStr "s1" /\
    subscribing (self w') = false /\
    queue (self w') = map entry_of [CallCount (VFun Sample.cb2)] /\
    log w' = log (renewed Sample.someFilters Sample.cb1 Sample.idle) /\
    socket (kuzzle w')
    = socket (kuzzle (renewed Sample.someFilters Sample.cb1 Sample.idle)).
Proof.
  apply (queued_renew_without_callback Sample.idle Sample.someFilters (VObj [])
           VNull Sample.cb1 [CallCount (VFun Sample.cb2)] 0 1000 VNull
           (Sample.subscribed "r1" "s1") (VStr "r1") (VStr "s1")); reflexivity.
Defined.

(** ** Counting *)

(** X4: on an instance that is not subscribing, [count] sends one request
    carrying the current room id and changes nothing on the instance; the
    response reaches the callback as [(error)] when there is an error and as
    [(null, response)] otherwise, and nothing else happens. *)
Theorem count_round_trip (w : world) (id : nat) (fuel : nat) (now : Z)
  (error response : value) :
  subscribing (self w) = false ->
  (count (VFun (UserFn id)) ;; respond fuel now "count" error response) w
  = (Returned tt,
     logged w [count_request (self w) (UserFn id);
               Call id (if truthy error then [error] else [VNull; response])]).
Proof.
  intros Hs. unfold bind. rewrite count_sent by exact Hs.
  unfold respond, logged at 1. cbn [log]. unfold count_request at 1.
  rewrite last_request_snoc. unfold run_callback.
  destruct (truthy error); cbn; unfold emit, logged; cbn.
  all: rewrite <- app_assoc; reflexivity.
Qed.

Lemma count_round_trip_witness :
  (count (VFun (UserFn 7)) ;; respond 0 5 "count" VNull (VNum 2)) Sample.active
  = (Returned tt,
     logged Sample.active
       [count_request (self Sample.active) (UserFn 7);
        Call 7 (if truthy VNull then [VNull] else [VNull; VNum 2])]).
Proof.
  apply (count_round_trip Sample.active 7 0 5 VNull (VNum 2)). reflexivity.
Defined.

(** ** Unsubscribing twice *)

(** X5: on an instance that is not subscribing, a second [unsubscribe] in a
    row does nothing: the pair behaves as the first call alone, with one
    unsubscribe request at most. *)
Theorem unsubscribe_twice (w : world) :
  subscribing (self w) = false ->
  (unsubscribe ;; unsubscribe) w = unsubscribe w.
Proof.
  intros Hs. unfold bind at 1.
  destruct (truthy (roomId (self w))) eqn:Ht.
  - rewrite (unsubscribe_active w Hs Ht).
    now rewrite unsubscribe_idle.
  - rewrite (unsubscribe_idle w Hs Ht).
    now rewrite unsubscribe_idle.
Qed.

Lemma unsubscribe_twice_witness :
  (unsubscribe ;; unsubscribe) Sample.active = unsubscribe Sample.active.
Proof. apply (unsubscribe_twice Sample.active). reflexivity. Defined.

(** ** Replaying counts *)

(** X6: [count] calls queued behind a [renew] are replayed when its subscribe
    response succeeds, in the order of the calls; their requests carry the
    room id of the new subscription and are sent before the notification
    handler is bound, and the queue is empty afterwards. *)
Theorem queued_counts_replayed_in_order (w : world) (fltrs : value) (f : fn)
  (fs : list fn) (fuel : nat) (now : Z) (error response rid rname : value) :
  subscribing (self w) = false ->
  queue (self w) = [] ->
  truthy error = false ->
  get response "roomId" = Some rid ->
  get response "roomName" = Some rname ->
  (List.length fs <= fuel)%nat ->
  exists w',
    (renew fltrs (VFun f) ;; count_all fs ;;
     respond fuel now "on" error response) w = (Returned tt, w') /\
    queue (self w') = [] /\
    log w'
    = log (renewed fltrs f w) ++
      map (fun g =>
             Query (collection (self w)) "subscribe" "count"
               (AddHeaders (VObj [("body", VObj [("roomId", rid)])])
                           (headers (self w)))
               (Some (CountCb g))) fs ++
      [SocketOn rid (Notify f)].
Proof.
  intros Hs Hq He Hrid Hrn Hlen.
  unfold bind at 1. rewrite renew_proceeds by exact Hs.
  unfold bind at 1.
  rewrite count_all_queued by apply renewed_subscribing.
  unfold respond. cbn [with_self log]. rewrite renewed_last_request.
  rewrite (renew_response_with_counts _ f fs fuel now error response rid rname);
    [|cbn; now rewrite renewed_queue, Hq|exact He|exact Hrid|exact Hrn|exact Hlen].
  eexists. split; [reflexivity|]. split; [reflexivity|].
  cbn [log with_self]. f_equal. f_equal. apply map_ext. intros g.
  unfold count_request, renewed.
  destruct (truthy (roomId (self w))); reflexivity.
Qed.

Lemma queued_counts_replayed_in_order_witness :
  exists w',
    (renew Sample.someFilters (VFun Sample.cb1) ;;
     count_all [Sample.cb2; Sample.cb3] ;;
     respond 2 1000 "on" VNull (Sample.subscribed "r1" "s1")) Sample.idle
    = (Returned tt, w') /\
    queue (self w') = [] /\
    log w'
    = log (renewed Sample.someFilters Sample.cb1 Sample.idle) ++
      map (fun g =>
             Query (collection (self Sample.idle)) "subscribe" "count"
               (AddHeaders (VObj [("body", VObj [("roomId", VStr "r1")])])
                           (headers (self Sample.idle)))
               (Some (CountCb g))) [Sample.cb2; Sample.cb3] ++
      [SocketOn (VStr "r1") (Notify Sample.cb1)].
Proof.
  apply (queued_counts_replayed_in_order Sample.idle Sample.someFilters
           Sample.cb1 [Sample.cb2; Sample.cb3] 2 1000 VNull
           (Sample.subscribed "r1" "s1") (VStr "r1") (VStr "s1")); reflexivity.
Defined.

(** ** A response without a body *)

(** X7: when the subscribe callback receives neither an error nor a response
    ([null] or [undefined]), reading [response.roomId] throws a TypeError
    before anything is stored: the instance is as [renew] left it, still
    subscribing, and no handler is bound. *)
Theorem subscribe_response_missing (w : world) (fltrs : value) (f : fn)
  (fuel : nat) (now : Z) (error response : value) :
  subscribing (self w) = false ->
  truthy error = false ->
  nullish response = true ->
  (renew fltrs (VFun f) ;; respond fuel now "on" error response) w
  = (Threw (TypeError "Cannot read property roomId"), renewed fltrs f w).
Proof.
  intros Hs He Hn. unfold bind. rewrite renew_proceeds by exact Hs.
  unfold respond. rewrite renewed_last_request.
  unfold run_callback. rewrite He.
  destruct response; try discriminate Hn; reflexivity.
Qed.

Lemma subscribe_response_missing_witness :
  (renew Sample.someFilters (VFun Sample.cb1) ;;
   respond 1 1000 "on" VNull VUndefined) Sample.idle
  = (Threw (TypeError "Cannot read property roomId"),
     renewed Sample.someFilters Sample.cb1 Sample.idle).
Proof.
  apply (subscribe_response_missing Sample.idle Sample.someFilters Sample.cb1
           1 1000 VNull VUndefined); reflexivity.
Defined.

(** ** One renewal after the other *)

Lemma bind_ret_tt (c : M unit) (w : world) : (c ;; ret tt) w = c w.
Proof.
  unfold bind, ret. destruct (c w) as [[[]| |] w']; reflexivity.
Qed.

Lemma detach_all (key : value) (l : list (value * handler)) :
  (forall b, In b l -> same_key (fst b) key = true) ->
  filter (fun b => negb (same_key (fst b) key)) l = [].
Proof.
  induction l as [|b l IH]; intros H; [reflexivity|].
  simpl. rewrite (H b (or_introl eq_refl)). simpl.
  apply IH. intros b' Hb'. apply H. now right.
Qed.



(** ** Ordinary, erroneous and malformed notifications *)

(** X9: a message without an error payload whose result action is neither
    ['on'] nor ['off'] (or is absent) is forwarded to the callback as
    [(null, result)], whatever the gate flags and the global listener lists:
    no count query, no listener, no change of the instance. *)
Theorem data_notification_forwarded (w : world) (id : nat)
  (data e result act : value) :
  get data "error" = Some e -> truthy e = false ->
  get data "result" = Some result ->
  get result "action" = Some act ->
  act <> VStr "on" -> act <> VStr "off" ->
  notify (UserFn id) data w
  = (Returned tt, logged w [Call id [VNull; result]]).
Proof.
  intros He Hf Hr Ha Hon Hoff.
  unfold notify, prop, bind at 1, ret at 1. rewrite He, Hf.
  unfold bind at 1, ret at 1. rewrite Hr.
  unfold bind at 1, ret at 1. rewrite Ha.
  assert (H1 : match act with VStr a => String.eqb a "on" | _ => false end = false).
  { destruct act; try reflexivity.
    destruct (String.eqb_spec s "on"); [subst; now elim Hon|reflexivity]. }
  assert (H2 : match act with VStr a => String.eqb a "off" | _ => false end = false).
  { destruct act; try reflexivity.
    destruct (String.eqb_spec s "off"); [subst; now elim Hoff|reflexivity]. }
  rewrite H1, H2. reflexivity.
Qed.

Lemma data_notification_forwarded_witness :
  notify (UserFn 1) (Sample.message "update") Sample.fresh
  = (Returned tt,
     logged Sample.fresh [Call 1 [VNull; VObj [("action", VStr "update")]]]).
Proof.
  apply (data_notification_forwarded Sample.fresh 1 (Sample.message "update")
           VUndefined (VObj [("action", VStr "update")]) (VStr "update"));
    try reflexivity; discriminate.
Defined.

(** X10: a message with an error payload is forwarded to the callback as
    [(error)] and nothing else is read from it: this holds whatever its
    result, also when there is none. *)
Theorem error_notification_forwarded (w : world) (id : nat) (data e : value) :
  get data "error" = Some e -> truthy e = true ->
  notify (UserFn id) data w = (Returned tt, logged w [Call id [e]]).
Proof.
  intros He Ht. unfold notify, prop, bind at 1, ret at 1.
  now rewrite He, Ht.
Qed.

Lemma error_notification_forwarded_witness :
  notify (UserFn 1) (VObj [("error", VStr "boom")]) Sample.idle
  = (Returned tt, logged Sample.idle [Call 1 [VStr "boom"]]).
Proof.
  apply (error_notification_forwarded Sample.idle 1
           (VObj [("error", VStr "boom")]) (VStr "boom")); reflexivity.
Defined.

(** X11: a message that carries neither an error nor a result (its [result]
    is absent or [null]) makes the handler throw a TypeError on
    [data.result.action]: no callback is called and nothing changes. *)
Theorem notification_without_result_throws (w : world) (cb : fn)
  (data e result : value) :
  get data "error" = Some e -> truthy e = false ->
  get data "result" = Some result -> nullish result = true ->
  notify cb data w = (Threw (TypeError "Cannot read property action"), w).
Proof.
  intros He Hf Hr Hn. unfold notify, prop, bind at 1, ret at 1.
  rewrite He, Hf. unfold bind at 1, ret at 1. rewrite Hr.
  destruct result; try discriminate Hn; reflexivity.
Qed.

Lemma notification_without_result_throws_witness :
  notify Sample.cb1 (VObj []) Sample.active
  = (Threw (TypeError "Cannot read property action"), Sample.active).
Proof.
  apply (notification_without_result_throws Sample.active Sample.cb1 (VObj [])
           VUndefined VUndefined); reflexivity.
Defined.

(** ** A lifecycle notification whose count succeeds *)

Lemma lookup_assign_same (k : string) (x : value)
  (fields : list (string * value)) :
  lookup k (assign k x fields) = Some x.
Proof.
  induction fields as [|[k' v] rest IH]; simpl.
  - now rewrite String.eqb_refl.
  - destruct (String.eqb k k') eqn:E; simpl; rewrite E; [reflexivity|exact IH].
Qed.

Lemma lookup_assign_other (k k0 : string) (x : value)
  (fields : list (string * value)) :
  k0 <> k ->
  lookup k0 (assign k x fields) = lookup k0 fields.
Proof.
  intros Hne. induction fields as [|[k' v] rest IH]; simpl.
  - destruct (String.eqb_spec k0 k); [contradiction|reflexivity].
  - destruct (String.eqb_spec k k') as [->|Hk]; simpl.
    + destruct (String.eqb_spec k0 k'); [contradiction|reflexivity].
    + destruct (String.eqb k0 k'); [reflexivity|exact IH].
Qed.

(** X12: when the count query of a lifecycle notification succeeds, the
    closure stores the count response under [count] in the result, keeping
    every other property of the result; it calls the subscription's callback
    with [(null, result)] exactly when the gate flag captured at the
    notification is true, and then every listener of the global list, in list
    order, with the subscription id the instance has at that moment and the
    same result. *)
Theorem lifecycle_count_success (w : world) (id : nat) (ev : string)
  (listening data countError countResult : value)
  (fields : list (string * value)) (ls : list nat) (fuel : nat) (now : Z) :
  get data "result" = Some (VObj fields) ->
  truthy countError = false ->
  listeners_of (kuzzle w) ev = Some ls ->
  exists augmented,
    run_callback fuel now (CountCb (LifecycleK (UserFn id) ev listening data))
      countError countResult w
    = (Returned tt,
       logged w ((if truthy listening then [Call id [VNull; augmented]] else [])
                 ++ map (fun l => Call l [subscriptionId (self w); augmented]) ls)) /\
    get augmented "count" = Some countResult /\
    (forall k, k <> "count" -> get augmented k = get (VObj fields) k).
Proof.
  intros Hr He Hl. exists (VObj (assign "count" countResult fields)).
  split; [|split].
  - unfold run_callback. rewrite He. simpl call_fn. unfold arg. simpl nth.
    cbn [truthy]. unfold prop. rewrite Hr. unfold bind at 1, ret at 1.
    cbn [set].
    destruct (truthy listening).
    + unfold bind at 1, emit at 1.
      unfold bind at 1, listeners at 1. cbn [kuzzle]. rewrite Hl.
      rewrite for_each_listener. unfold logged. cbn.
      now rewrite <- app_assoc.
    + unfold bind at 1, ret at 1.
      unfold bind at 1, listeners at 1. rewrite Hl.
      now rewrite for_each_listener.
  - simpl. now rewrite lookup_assign_same.
  - intros k Hk. simpl. now rewrite lookup_assign_other.
Qed.

Lemma lifecycle_count_success_witness :
  exists augmented,
    run_callback 0 0
      (CountCb (LifecycleK (UserFn 1) "subscribed" (VBool true)
                  (Sample.message "on")))
      VNull (VNum 3) Sample.active
    = (Returned tt,
       logged Sample.active
         ((if truthy (VBool true) then [Call 1 [VNull; augmented]] else [])
          ++ map (fun l => Call l [subscriptionId (self Sample.active); augmented])
                 [])) /\
    get augmented "count" = Some (VNum 3) /\
    (forall k, k <> "count" ->
               get augmented k = get (VObj [("action", VStr "on")]) k).
Proof.
  apply (lifecycle_count_success Sample.active 1 "subscribed" (VBool true)
           (Sample.message "on") VNull (VNum 3) [("action", VStr "on")] [] 0 0);
    reflexivity.
Defined.

(** ** The constructor, further *)

(** X13: the constructor yields an instance exactly when a data collection is
    given, [kuzzle.isValid()] returns and the headers of the collection can be
    copied through JSON; the options never make it fail.  Without a data
    collection it throws ['KuzzleRoom: missing parameters'] before anything
    else is looked at. *)
Theorem constructor_succeeds_iff (kdc : option DataCollection)
  (options : value) (k : Kuzzle) :
  ((exists r, KuzzleRoom kdc options k = inr r) <->
   (exists dc, kdc = Some dc /\ valid k = true /\
               json_copy (dc_headers dc) <> None)) /\
  (kdc = None ->
   KuzzleRoom kdc options k
   = inl (Error "KuzzleRoom: missing parameters" VUndefined)).
Proof.
  split; [split|].
  - intros [r Hr]. destruct kdc as [dc|]; [|discriminate Hr].
    exists dc. unfold KuzzleRoom in Hr.
    destruct (valid k); [|discriminate Hr].
    destruct (json_copy (dc_headers dc)); [|discriminate Hr].
    repeat split. discriminate.
  - intros (dc & -> & Hv & Hh). unfold KuzzleRoom. rewrite Hv.
    destruct (json_copy (dc_headers dc)); [|contradiction].
    eexists. reflexivity.
  - intros ->. reflexivity.
Qed.

(** X14: an option that is set to a truthy value is stored as that very
    value, not as [true]; an option that is falsy is stored as [false].  So
    each flag of the instance is truthy exactly when its option is. *)
Theorem constructor_keeps_option_values (dc : DataCollection) (options : value)
  (k : Kuzzle) (r : Room) (v1 v2 v3 : value) :
  KuzzleRoom (Some dc) options k = inr r ->
  truthy options = true ->
  get options "listeningToConnections" = Some v1 ->
  get options "listeningToDisconnections" = Some v2 ->
  get options "subscribeToSelf" = Some v3 ->
  listeningToConnections r = (if truthy v1 then v1 else VBool false) /\
  listeningToDisconnections r = (if truthy v2 then v2 else VBool false) /\
  subscribeToSelf r = (if truthy v3 then v3 else VBool false) /\
  truthy (listeningToConnections r) = truthy v1 /\
  truthy (listeningToDisconnections r) = truthy v2 /\
  truthy (subscribeToSelf r) = truthy v3.
Proof.
  intros Hr Ho H1 H2 H3. unfold KuzzleRoom in Hr.
  destruct (valid k); [|discriminate Hr].
  destruct (json_copy (dc_headers dc)); [|discriminate Hr].
  injection Hr as <-. cbn [listeningToConnections listeningToDisconnections
    subscribeToSelf]. unfold option_flag. rewrite Ho, H1, H2, H3.
  repeat split; try reflexivity.
  - destruct (truthy v1) eqn:E; [exact E|reflexivity].
  - destruct (truthy v2) eqn:E; [exact E|reflexivity].
  - destruct (truthy v3) eqn:E; [exact E|reflexivity].
Qed.

Lemma constructor_keeps_option_values_witness :
  exists r,
    KuzzleRoom (Some Sample.books)
      (VObj [("listeningToConnections", VNum 1);
             ("subscribeToSelf", VStr "")]) Sample.client = inr r /\
    listeningToConnections r = VNum 1 /\
    listeningToDisconnections r = VBool false /\
    subscribeToSelf r = VBool false.
Proof.
  eexists. split; [reflexivity|].
  pose proof (constructor_keeps_option_values Sample.books
                (VObj [("listeningToConnections", VNum 1);
                       ("subscribeToSelf", VStr "")]) Sample.client _
                (VNum 1) VUndefined (VStr "")
                eq_refl eq_refl eq_refl eq_refl eq_refl) as (H1 & H2 & H3 & _).
  repeat split; assumption.
Defined.

(** ** A loop that never ends *)

Lemma invoke_requeues (dq : M unit) (e : qentry) (w : world) :
  subscribing (self w) = true ->
  requeues e = true ->
  exists e',
    invoke dq e w
    = (Returned tt, with_self w (set_queue (queue (self w) ++ [e']) (self w))) /\
    requeues e' = true.
Proof.
  intros Hs Hr. unfold requeues in Hr. unfold invoke.
  destruct (prototype (action e)) as [[| | |]|]; try discriminate Hr.
  - destruct (arg 0 (args e)) as [| | | | | |f]; try discriminate Hr.
    exists (count_entry f). split; [now apply count_queued|reflexivity].
  - eexists. split; [now apply renew_queued|reflexivity].
Qed.

(** Once [subscribing] is set, a queue of [count] and [renew] entries only
    rotates. *)
Lemma dequeue_rotates (fuel : nat) (w : world) :
  subscribing (self w) = true ->
  queue (self w) <> [] ->
  forallb requeues (queue (self w)) = true ->
  fst (dequeue fuel w) = OutOfFuel.
Proof.
  revert w. induction fuel as [|n IH]; intros w Hs Hne Hall;
    destruct (queue (self w)) as [|e rest] eqn:Hq; try contradiction.
  - simpl. now rewrite Hq.
  - simpl in Hall. apply andb_true_iff in Hall as [He Hrest].
    simpl. rewrite Hq. unfold bind at 1, update at 1. unfold bind at 1.
    destruct (invoke_requeues (dequeue n) e
                {| self := set_queue rest (self w); kuzzle := kuzzle w;
                   log := log w |} Hs He) as (e' & Hi & He').
    rewrite Hi. apply IH.
    + exact Hs.
    + cbn. now destruct rest.
    + cbn. rewrite forallb_app, Hrest. simpl. now rewrite He'.
Qed.

Lemma dequeue_counts_then_renew (fs : list fn) (fuel : nat) (w : world)
  (fltrs : value) (g : fn) (e : qentry) (rest : list qentry) :
  subscribing (self w) = false ->
  queue (self w)
  = map count_entry fs ++
    {| action := "renew"; args := [fltrs; VFun g] |} :: e :: rest ->
  forallb requeues (e :: rest) = true ->
  fst (dequeue fuel w) = OutOfFuel.
Proof.
  revert fuel w. induction fs as [|f fs IH]; intros fuel w Hs Hq Hall.
  - destruct fuel as [|n]; simpl; rewrite Hq; simpl; [reflexivity|].
    unfold bind at 1, update at 1. unfold bind at 1.
    unfold invoke. cbn [action args arg nth].
    change (prototype "renew") with (Some m_renew). cbv iota.
    rewrite renew_proceeds by exact Hs.
    apply dequeue_rotates.
    + apply renewed_subscribing.
    + rewrite renewed_queue. discriminate.
    + now rewrite renewed_queue.
  - destruct fuel as [|n]; simpl; rewrite Hq; simpl; [reflexivity|].
    unfold bind at 1, update at 1. unfold bind at 1.
    unfold invoke. cbn [action args count_entry arg nth].
    change (prototype "count") with (Some m_count). cbv iota.
    rewrite count_sent by exact Hs.
    apply IH; [exact Hs|reflexivity|exact Hall].
Qed.

(** X15: the processing of a successful subscribe response never ends when
    the queue holds, behind any number of [count] entries, a [renew] with a
    function as callback followed by at least one more [count] or [renew]
    entry: the replayed [renew] sets [subscribing] again and from then on each
    turn of the loop in [dequeue] pushes back the entry it has shifted.
    Whatever the fuel, the loop is still running when it is used up. *)
Theorem response_with_queued_renew_never_returns (w : world) (f g : fn)
  (fs : list fn) (fltrs : value) (e : qentry) (rest : list qentry) (now : Z)
  (error response rid rname : value) :
  truthy error = false ->
  get response "roomId" = Some rid ->
  get response "roomName" = Some rname ->
  queue (self w)
  = map count_entry fs ++
    {| action := "renew"; args := [fltrs; VFun g] |} :: e :: rest ->
  forallb requeues (e :: rest) = true ->
  forall fuel,
    fst (run_callback fuel now (RenewCb f) error response w) = OutOfFuel.
Proof.
  intros He Hrid Hrn Hq Hall fuel.
  unfold run_callback. rewrite He. unfold prop. rewrite Hrid, Hrn.
  unfold bind at 1, ret at 1. unfold bind at 1, update at 1.
  unfold bind at 1, ret at 1. unfold bind at 1, update at 1.
  unfold bind at 1, update at 1. unfold bind at 1, update at 1.
  unfold bind at 1.
  match goal with
  | |- context [dequeue fuel ?W] =>
      pose proof (dequeue_counts_then_renew fs fuel W fltrs g e rest
                    eq_refl Hq Hall) as H;
      destruct (dequeue fuel W) as [o w']
  end.
  simpl in H. now subst o.
Qed.

Lemma response_with_queued_renew_never_returns_witness :
  fst (run_callback 50 1000 (RenewCb Sample.cb1) VNull
         (Sample.subscribed "r1" "s1")
         (snd ((renew Sample.someFilters (VFun Sample.cb1) ;;
                count (VFun Sample.cb2) ;;
                renew (VObj []) (VFun Sample.cb2) ;;
                renew (VObj []) VNull ;;
                count (VFun Sample.cb3)) Sample.idle))) = OutOfFuel.
Proof.
  apply (response_with_queued_renew_never_returns _ Sample.cb1 Sample.cb2
           [Sample.cb2] (VObj []) {| action := "renew"; args := [VObj []; VNull] |}
           [count_entry Sample.cb3] 1000 VNull
           (Sample.subscribed "r1" "s1") (VStr "r1") (VStr "s1")).
  - reflexivity.
  - reflexivity.
  - reflexivity.
  - reflexivity.
  - reflexivity.
Defined.

(** ** What every run keeps *)

Create HintDb keeps.

Section Preservation.

(** A property of the world that the elementary effects keep. *)
Variable P : world -> Prop.

Hypothesis P_emit : forall e, preserves P (emit e).
Hypothesis P_socket_on : forall key h, preserves P (socket_on key h).
Hypothesis P_socket_off : forall key, preserves P (socket_off key).
Hypothesis P_roomId : forall v, preserves P (update (set_roomId v)).
Hypothesis P_subscriptionId :
  forall v, preserves P (update (set_subscriptionId v)).
Hypothesis P_subscriptionTimestamp :
  forall v, preserves P (update (set_subscriptionTimestamp v)).
Hypothesis P_filters : forall v, preserves P (update (set_filters v)).
Hypothesis P_subscribing : forall b, preserves P (update (set_subscribing b)).
Hypothesis P_shift :
  forall w e rest,
    P w -> queue (self w) = e :: rest -> P (snd (update (set_queue rest) w)).
Hypothesis P_push : forall e, pushed e = true -> preserves P (push e).

Lemma preserves_pure {A : Type} (c : M A) :
  (forall w, snd (c w) = w) -> preserves P c.
Proof. intros H w Hw. now rewrite H. Qed.

Lemma preserves_bind {A B : Type} (c : M A) (k : A -> M B) :
  preserves P c -> (forall a, preserves P (k a)) -> preserves P (bind c k).
Proof.
  intros Hc Hk w Hw. unfold bind. specialize (Hc w Hw).
  destruct (c w) as [[a|e|] w1]; simpl in *; [now apply Hk|exact Hc|exact Hc].
Qed.

Lemma preserves_ret {A : Type} (a : A) : preserves P (ret a).
Proof. now apply preserves_pure. Qed.

Lemma preserves_throw {A : Type} (e : exn) : preserves P (@throw A e).
Proof. now apply preserves_pure. Qed.

Lemma preserves_this : preserves P this.
Proof. now apply preserves_pure. Qed.

Lemma preserves_prop (v : value) (k : string) : preserves P (prop v k).
Proof.
  apply preserves_pure. intros w. unfold prop. now destruct (get v k).
Qed.

Lemma preserves_listeners (ev : string) : preserves P (listeners ev).
Proof.
  apply preserves_pure. intros w. unfold listeners.
  now destruct (listeners_of (kuzzle w) ev).
Qed.

Lemma preserves_callbackRequired (prefix : string) (cb : value) :
  preserves P (callbackRequired prefix cb).
Proof. apply preserves_pure. intros w. now destruct cb. Qed.

Lemma preserves_query (coll : value) (controller verb : string)
  (data : request) (cb : option qcallback) :
  preserves P (query coll controller verb data cb).
Proof. apply P_emit. Qed.

#[local] Hint Resolve preserves_ret preserves_throw preserves_this preserves_prop
  preserves_listeners preserves_callbackRequired preserves_query
  P_emit P_socket_on P_socket_off P_roomId P_subscriptionId
  P_subscriptionTimestamp P_filters P_subscribing : keeps.

(** Binds are split, branches are taken apart, and the leaves are closed
    with the facts above. *)
Ltac keeps :=
  repeat first
    [ apply preserves_bind; [|intro]
    | match goal with
      | |- preserves _ (if ?b then _ else _) => destruct b
      | |- preserves _ (match ?x with _ => _ end) => destruct x
      end ];
  auto with keeps.

Lemma preserves_for_each (res : value) (ls : list nat) :
  preserves P
    (fold_right
       (fun listener rest =>
          r <- this ;; emit (Call listener [subscriptionId r; res]) ;; rest)
       (ret tt) ls).
Proof. induction ls as [|l ls IH]; simpl; keeps. Qed.

Lemma preserves_call_fn (f : fn) (actuals : list value) :
  preserves P (call_fn f actuals).
Proof.
  revert actuals. induction f as [id|cb IH ev listening data];
    intros actuals; simpl.
  - apply P_emit.
  - destruct (truthy (arg 0 actuals)).
    + destruct (truthy listening); [apply IH|apply preserves_ret].
    + apply preserves_bind; [apply preserves_prop|intros result].
      destruct (set result "count" (arg 1 actuals)); [|apply preserves_throw].
      apply preserves_bind;
        [destruct (truthy listening); [apply IH|apply preserves_ret]|intros _].
      apply preserves_bind; [apply preserves_listeners|intros ls].
      apply preserves_for_each.
Qed.

Lemma preserves_count (cb : value) : preserves P (count cb).
Proof.
  unfold count. destruct cb as [| | | | | |f];
    try (apply preserves_pure; reflexivity).
  apply preserves_bind; [apply preserves_callbackRequired|intros g].
  apply preserves_bind; [apply preserves_this|intros r].
  destruct (subscribing r); [apply P_push; reflexivity|apply preserves_query].
Qed.

Lemma preserves_unsubscribe : preserves P unsubscribe.
Proof.
  unfold unsubscribe. apply preserves_bind; [apply preserves_this|intros r].
  destruct (subscribing r); [apply P_push; reflexivity|]. keeps.
Qed.

Lemma preserves_renew (fltrs cb : value) : preserves P (renew fltrs cb).
Proof.
  unfold renew. apply preserves_bind; [apply preserves_this|intros r].
  destruct (subscribing r); [apply P_push; reflexivity|].
  pose proof preserves_unsubscribe. keeps.
Qed.

Lemma preserves_invoke (dq : M unit) (e : qentry) :
  preserves P dq -> preserves P (invoke dq e).
Proof.
  intros Hdq. unfold invoke.
  destruct (prototype (action e)) as [[| | |]|].
  - apply preserves_count.
  - apply preserves_renew.
  - apply preserves_unsubscribe.
  - exact Hdq.
  - apply preserves_throw.
Qed.

Lemma preserves_dequeue (fuel : nat) : preserves P (dequeue fuel).
Proof.
  induction fuel as [|n IH]; intros w Hw; simpl;
    destruct (queue (self w)) as [|e rest] eqn:Hq; try exact Hw.
  unfold bind at 1.
  change (update (set_queue rest) w)
    with (Returned tt, snd (update (set_queue rest) w)).
  cbv iota beta.
  apply (preserves_bind (invoke (dequeue n) e) (fun _ => dequeue n)).
  - now apply preserves_invoke.
  - intros _. exact IH.
  - now apply (P_shift w e rest).
Qed.

Lemma preserves_notify (cb : fn) (data : value) : preserves P (notify cb data).
Proof.
  unfold notify.
  apply preserves_bind; [apply preserves_prop|intros error].
  destruct (truthy error); [apply preserves_call_fn|].
  apply preserves_bind; [apply preserves_prop|intros result].
  apply preserves_bind; [apply preserves_prop|intros act].
  match goal with |- preserves _ (if ?b then _ else _) => destruct b end;
    [|apply preserves_call_fn].
  apply preserves_bind; [apply preserves_this|intros r].
  apply preserves_bind.
  - keeps.
  - intros [|]; [apply preserves_count|apply preserves_ret].
Qed.

Lemma preserves_run_callback (fuel : nat) (now : Z) (k : qcallback)
  (error response : value) :
  preserves P (run_callback fuel now k error response).
Proof.
  destruct k as [cb|cb]; simpl.
  - destruct (truthy error); apply preserves_call_fn.
  - pose proof (preserves_dequeue fuel). keeps.
Qed.

Lemma preserves_respond (fuel : nat) (now : Z) (verb : string)
  (error response : value) :
  preserves P (respond fuel now verb error response).
Proof.
  intros w Hw. unfold respond.
  destruct (last_request verb (log w)) as [[k|]|]; try exact Hw.
  now apply preserves_run_callback.
Qed.

Lemma preserves_deliver (key data : value) : preserves P (deliver key data).
Proof.
  intros w Hw. unfold deliver.
  generalize (filter (fun b => same_key (fst b) key) (socket (kuzzle w))).
  intros l. revert w Hw. induction l as [|[k [cb]] l IH]; intros w Hw.
  - exact Hw.
  - simpl. apply (preserves_bind (notify cb data)); try assumption.
    + apply preserves_notify.
    + intros _ w1 Hw1. now apply IH.
Qed.

Lemma preserves_run_step (s : step) : preserves P (run_step s).
Proof.
  destruct s as [[fltrs cb|cb|]|fuel now verb error response|key data]; simpl.
  - apply preserves_renew.
  - apply preserves_count.
  - apply preserves_unsubscribe.
  - apply preserves_respond.
  - apply preserves_deliver.
Qed.

Lemma run_keeps (steps : list step) (w : world) : P w -> P (run steps w).
Proof.
  revert w. induction steps as [|s steps IH]; intros w Hw; simpl.
  - exact Hw.
  - apply IH. now apply preserves_run_step.
Qed.

End Preservation.

(** X16: no run changes what was configured at construction: whatever calls,
    responses and messages follow one another, and however each of them ends,
    the collection, the headers, the two listening flags, [subscribeToSelf],
    the metadata and the global listener lists are what they were. *)
Theorem settings_never_change (steps : list step) (w : world) :
  settings (run steps w) = settings w.
Proof.
  apply (run_keeps (fun w' => settings w' = settings w));
    try (intros; intros w' Hw'; exact Hw'); try reflexivity.
  - intros w' e rest Hw' _. exact Hw'.
Qed.

(** X17: in every run, the queue only ever holds entries of the three shapes
    the methods push: ['count'] with one function, ['renew'] with two
    arguments, and ['unsubscribed'] without arguments.  In particular no entry
    ever names [unsubscribe]. *)
Theorem queue_holds_pushed_entries (steps : list step) (w : world) :
  forallb pushed (queue (self w)) = true ->
  forallb pushed (queue (self (run steps w))) = true /\
  forall e, In e (queue (self (run steps w))) ->
            action e <> "unsubscribe" /\ action e <> "dequeue".
Proof.
  intros Hw.
  assert (H : forallb pushed (queue (self (run steps w))) = true).
  { apply (run_keeps (fun w' => forallb pushed (queue (self w')) = true));
      try (intros; intros w' Hw'; exact Hw'); try exact Hw.
    - intros w' e rest Hw' Hq. rewrite Hq in Hw'. simpl in Hw'.
      apply andb_true_iff in Hw' as [_ Hrest]. exact Hrest.
    - intros e He w' Hw'. cbn. rewrite forallb_app, Hw'. simpl.
      now rewrite He. }
  split; [exact H|]. intros e He.
  rewrite forallb_forall in H. specialize (H e He). unfold pushed in H.
  split; intros Ha; rewrite Ha in H;
    destruct (args e) as [|a [|b [|]]]; try discriminate H;
    rewrite andb_false_r in H; discriminate H.
Qed.

Lemma queue_holds_pushed_entries_witness :
  let steps := [Do (CallRenew Sample.someFilters (VFun Sample.cb1));
                Do CallUnsubscribe;
                Do (CallCount (VFun Sample.cb2));
                Respond 3 1000 "on" VNull (Sample.subscribed "r1" "s1");
                Deliver (VStr "r1") (Sample.message "on")] in
  forallb pushed (queue (self (run steps Sample.idle))) = true /\
  forall e, In e (queue (self (run steps Sample.idle))) ->
            action e <> "unsubscribe" /\ action e <> "dequeue".
Proof.
  apply (queue_holds_pushed_entries
           [Do (CallRenew Sample.someFilters (VFun Sample.cb1));
            Do CallUnsubscribe;
            Do (CallCount (VFun Sample.cb2));
            Respond 3 1000 "on" VNull (Sample.subscribed "r1" "s1");
            Deliver (VStr "r1") (Sample.message "on")] Sample.idle).
  reflexivity.
Defined.

(** ** A queued unsubscribe, in general *)

Lemma dequeue_counts_then_unknown (fs : list fn) (fuel : nat) (w : world)
  (e : qentry) (rest : list qentry) :
  subscribing (self w) = false ->
  queue (self w) = map count_entry fs ++ e :: rest ->
  prototype (action e) = None ->
  (List.length fs < fuel)%nat ->
  dequeue fuel w
  = (Threw (TypeError ("Cannot read property apply of undefined: " ++ action e)),
     {| self := set_queue rest (self w);
        kuzzle := kuzzle w;
        log := log w ++ map (count_request (self w)) fs |}).
Proof.
  revert fuel w. induction fs as [|f fs IH]; intros fuel w Hs Hq Hp Hlen;
    (destruct fuel as [|n]; [simpl in Hlen; lia|]).
  - rewrite (dequeue_unknown_action n w e rest Hq Hp).
    simpl. now rewrite app_nil_r.
  - simpl in Hlen. simpl dequeue. rewrite Hq. simpl map. simpl app.
    unfold bind at 1, update at 1. unfold bind at 1.
    unfold invoke. cbn [action args count_entry arg nth].
    change (prototype "count") with (Some m_count). cbv iota.
    rewrite count_sent by exact Hs.
    rewrite IH; [|exact Hs|reflexivity|exact Hp|lia].
    cbn. rewrite <- app_assoc. reflexivity.
Qed.

(** X18: an [unsubscribe] called while a renewal is in flight stops the replay
    at its entry.  When the subscribe response succeeds, the [count] calls
    made before it are replayed in order with the new room id; then the entry
    ['unsubscribed'] raises a TypeError: the subscription is not torn down,
    the calls made after it stay in the queue, and the notification handler
    of the renewal is never bound. *)
Theorem queued_unsubscribe_stops_replay (w : world) (fltrs : value) (f : fn)
  (fs : list fn) (cs : list call) (fuel : nat) (now : Z)
  (error response rid rname : value) :
  subscribing (self w) = false ->
  queue (self w) = [] ->
  forallb has_callback cs = true ->
  truthy error = false ->
  get response "roomId" = Some rid ->
  get response "roomName" = Some rname ->
  (List.length fs < fuel)%nat ->
  exists w',
    (renew fltrs (VFun f) ;; count_all fs ;; unsubscribe ;; perform_all cs ;;
     respond fuel now "on" error response) w
    = (Threw (TypeError "Cannot read property apply of undefined: unsubscribed"),
       w') /\
    roomId (self w') = rid /\ subscriptionId (self w') = rname /\
    subscribing (self w') = false /\
    queue (self w') = map entry_of cs /\
    socket (kuzzle w') = socket (kuzzle (renewed fltrs f w)) /\
    log w'
    = log (renewed fltrs f w) ++
      map (fun g =>
             Query (collection (self w)) "subscribe" "count"
               (AddHeaders (VObj [("body", VObj [("roomId", rid)])])
                           (headers (self w)))
               (Some (CountCb g))) fs.
Proof.
  intros Hs Hq Hc He Hrid Hrn Hlen.
  pose proof (renewed_subscribing fltrs f w) as Hsub.
  unfold bind at 1. rewrite renew_proceeds by exact Hs.
  unfold bind at 1. rewrite count_all_queued by exact Hsub.
  unfold bind at 1. rewrite unsubscribe_queued by exact Hsub.
  unfold bind at 1. rewrite perform_all_queued by assumption.
  unfold respond. cbn [with_self log]. rewrite renewed_last_request.
  cbn [with_self self queue set_queue]. rewrite renewed_queue, Hq.
  unfold run_callback. rewrite He. unfold prop. rewrite Hrid, Hrn.
  unfold bind at 1, ret at 1. unfold bind at 1, update at 1.
  unfold bind at 1, ret at 1. unfold bind at 1, update at 1.
  unfold bind at 1, update at 1. unfold bind at 1, update at 1.
  unfold bind at 1.
  rewrite (dequeue_counts_then_unknown fs fuel _
             {| action := "unsubscribed"; args := [] |} (map entry_of cs));
    [|reflexivity|cbn; now rewrite <- app_assoc|reflexivity|exact Hlen].
  eexists. split; [reflexivity|]. cbn [self kuzzle log].
  repeat split.
  f_equal. apply map_ext. intros g. unfold count_request, renewed.
  destruct (truthy (roomId (self w))); reflexivity.
Qed.

Lemma queued_unsubscribe_stops_replay_witness :
  exists w',
    (renew Sample.someFilters (VFun Sample.cb1) ;;
     count_all [Sample.cb2] ;; unsubscribe ;;
     perform_all [CallCount (VFun Sample.cb3)] ;;
     respond 2 1000 "on" VNull (Sample.subscribed "r1" "s1")) Sample.idle
    = (Threw (TypeError "Cannot read property apply of undefined: unsubscribed"),
       w') /\
    roomId (self w') = VStr "r1" /\ subscriptionId (self w') = VStr "s1" /\
    subscribing (self w') = false /\
    queue (self w') = map entry_of [CallCount (VFun Sample.cb3)] /\
    socket (kuzzle w')
    = socket (kuzzle (renewed Sample.someFilters Sample.cb1 Sample.idle)) /\
    log w'
    = log (renewed Sample.someFilters Sample.cb1 Sample.idle) ++
      map (fun g =>
             Query (collection (self Sample.idle)) "subscribe" "count"
               (AddHeaders (VObj [("body", VObj [("roomId", VStr "r1")])])
                           (headers (self Sample.idle)))
               (Some (CountCb g))) [Sample.cb2].
Proof.
  apply (queued_unsubscribe_stops_replay Sample.idle Sample.someFilters
           Sample.cb1 [Sample.cb2] [CallCount (VFun Sample.cb3)] 2 1000 VNull
           (Sample.subscribed "r1" "s1") (VStr "r1") (VStr "s1"));
    try reflexivity.
  simpl; lia.
Defined.
